(** * Keyword checker back end (backend/api.py): embedding and properties

    The development follows the Flask module [backend/api.py]:

    - [PyStr]     the string methods of Python the module calls
                  ([strip], [lower], [replace], [split], [in], [startswith])
                  and the fixed-point format [f"{x:.Nf}"];
    - [Parser]    [parse_llm_response_enhanced], a line scanner with a
                  current-section tag, then the quality gate;
    - [Narrative] [analyze_keyword_with_llm] with its two canned results;
    - [Matcher]   [load_categories], the two nearest-neighbour stages and the
                  [keyword_checker] endpoint;
    - [Reports]   the read-only endpoints that print growth percentages.

    Text is a sequence of code points below 256 (Rocq's [ascii] read as
    Latin-1); on those the string functions below agree with Python's.
    A finite floating-point number is modelled by a rational and float
    arithmetic by exact arithmetic; NaN, infinities and the negative zero
    are outside the model. *)

From Stdlib Require Import String Ascii List Bool Arith ZArith QArith Lia.
From Stdlib Require Import Sorted Permutation.
Import ListNotations.

Close Scope Q_scope.
Open Scope nat_scope.
Open Scope list_scope.
Open Scope string_scope.

(* ------------------------------------------------------------------ *)
(** ** Python string methods *)

Module PyStr.

(** [str.isspace] on one code point below 256: TAB..CR, FS..US, SPACE,
    NEL (0x85) and NBSP (0xA0). *)
Definition isspace (c : ascii) : bool :=
  let n := nat_of_ascii c in
  (((9 <=? n) && (n <=? 13)) || ((28 <=? n) && (n <=? 32))
   || (n =? 133) || (n =? 160))%nat.

(** [str.lower] on one code point below 256: A..Z and the Latin-1
    capitals 0xC0..0xDE (the multiplication sign 0xD7 apart) move up by 32. *)
Definition lower_char (c : ascii) : ascii :=
  let n := nat_of_ascii c in
  if (((65 <=? n) && (n <=? 90))
      || ((192 <=? n) && (n <=? 222) && negb (n =? 215)))%nat
  then ascii_of_nat (n + 32) else c.

Fixpoint lower (s : string) : string :=
  match s with
  | EmptyString => EmptyString
  | String c r => String (lower_char c) (lower r)
  end.

Fixpoint lstrip (s : string) : string :=
  match s with
  | EmptyString => EmptyString
  | String c r => if isspace c then lstrip r else s
  end.

(** A trailing run of white space is dropped: the character [c] goes
    exactly when it is white space and nothing survives to its right. *)
Fixpoint rstrip (s : string) : string :=
  match s with
  | EmptyString => EmptyString
  | String c r =>
      match rstrip r with
      | EmptyString => if isspace c then EmptyString else String c EmptyString
      | r' => String c r'
      end
  end.

Definition strip (s : string) : string := rstrip (lstrip s).

(** [s.startswith(p)] *)
Fixpoint startswith (p s : string) : bool :=
  match p, s with
  | EmptyString, _ => true
  | String a p', String b s' => Ascii.eqb a b && startswith p' s'
  | String _ _, EmptyString => false
  end.

(** [sub in s] *)
Fixpoint contains (sub s : string) : bool :=
  startswith sub s ||
  match s with
  | EmptyString => false
  | String _ r => contains sub r
  end.

(** [s[1:]] *)
Definition tail (s : string) : string :=
  match s with
  | EmptyString => EmptyString
  | String _ r => r
  end.

(** [s.replace(old, new)] for a non-empty [old]: occurrences are found
    from the left and do not overlap.  [skip] counts the characters of a
    match that are still to be dropped. *)
Fixpoint replace_from (old new : string) (skip : nat) (s : string) : string :=
  match s with
  | EmptyString => EmptyString
  | String c r =>
      match skip with
      | S k => replace_from old new k r
      | O =>
          if startswith old s
          then new ++ replace_from old new (String.length old - 1) r
          else String c (replace_from old new 0 r)
      end
  end.

Definition replace (old new s : string) : string := replace_from old new 0 s.

(** [s.split(sep)] for a one-character separator; the accumulator holds
    the current field in reverse.  [split] of the empty string is [[""]]. *)
Fixpoint rev_string (acc s : string) : string :=
  match s with
  | EmptyString => acc
  | String c r => rev_string (String c acc) r
  end.

Fixpoint split_from (sep : ascii) (field : string) (s : string) : list string :=
  match s with
  | EmptyString => [rev_string EmptyString field]
  | String c r =>
      if Ascii.eqb c sep
      then rev_string EmptyString field :: split_from sep EmptyString r
      else split_from sep (String c field) r
  end.

Definition split (sep : ascii) (s : string) : list string :=
  split_from sep EmptyString s.

(** Truth value of a string: [if s:] *)
Definition truthy (s : string) : bool :=
  match s with EmptyString => false | String _ _ => true end.

Definition nl : ascii := ascii_of_nat 10.

(** [sep.join(l)] *)
Fixpoint join (sep : string) (l : list string) : string :=
  match l with
  | [] => EmptyString
  | [x] => x
  | x :: r => x ++ sep ++ join sep r
  end.

(** *** Fixed-point formatting, [format(x, ".Nf")]

    The value is rounded to [d] decimals, ties to even, on its exact
    value; a negative value keeps its sign even when it rounds to zero. *)

Definition round_half_even (x : Q) : Z :=
  let n := Qnum x in
  let d := Zpos (Qden x) in
  let fl := (n / d)%Z in
  match (2 * (n mod d) ?= d)%Z with
  | Lt => fl
  | Gt => (fl + 1)%Z
  | Eq => if Z.even fl then fl else (fl + 1)%Z
  end.

Definition digit (n : Z) : ascii := ascii_of_nat (48 + Z.to_nat n).

(** The last [d] decimal digits of [n], most significant first. *)
Fixpoint last_digits (d : nat) (n : Z) : string :=
  match d with
  | O => EmptyString
  | S d' => last_digits d' (n / 10)%Z ++ String (digit (n mod 10)%Z) EmptyString
  end.

(** Decimal numeral of a natural number (no leading zeros, ["0"] for 0);
    [fuel] bounds the number of digits. *)
Fixpoint numeral_fuel (fuel : nat) (n : Z) (acc : string) : string :=
  match fuel with
  | O => acc
  | S f =>
      let acc' := String (digit (n mod 10)%Z) acc in
      if (n <? 10)%Z then acc' else numeral_fuel f (n / 10)%Z acc'
  end.

Definition numeral (n : Z) : string :=
  numeral_fuel (S (Z.to_nat (Z.log2 n))) n EmptyString.

Definition format_unsigned (d : nat) (x : Q) : string :=
  let scaled := round_half_even (x * inject_Z (10 ^ Z.of_nat d))%Q in
  let whole := (scaled / 10 ^ Z.of_nat d)%Z in
  match d with
  | O => numeral whole
  | _ => numeral whole ++ "." ++ last_digits d scaled
  end.

Definition Qneg (x : Q) : bool :=
  match (x ?= 0)%Q with Lt => true | _ => false end.

Definition format_f (d : nat) (x : Q) : string :=
  if Qneg x then "-" ++ format_unsigned d (- x)%Q else format_unsigned d x.

(** [round(x, d)] on a float: the multiple of [10^-d] nearest to [x],
    ties to even (the float returned is the one nearest to it). *)
Definition py_round (d : nat) (x : Q) : Q :=
  let p := (10 ^ Z.of_nat d)%Z in
  if Qneg x
  then Qred (- (inject_Z (round_half_even (- x * inject_Z p)) / inject_Z p))%Q
  else Qred (inject_Z (round_half_even (x * inject_Z p)) / inject_Z p)%Q.

End PyStr.

Import PyStr.

(* ------------------------------------------------------------------ *)
(** ** The response parser: [parse_llm_response_enhanced] *)

Module Parser.

(** The dictionary every analysis path returns. *)
Record AnalysisResult := mkAnalysis {
  future_trend : string;
  insights : list string;
  recommendations : list string
}.

(** [current_section]: [None] at the start, then the last header seen. *)
Inductive section := Trend | Insights | Recommendations.

(** The locals of the scanning loop. *)
Record NarrativeSections := mkSections {
  ns_future_trend : string;
  ns_insights : list string;
  ns_recommendations : list string;
  current_section : option section
}.

Definition start : NarrativeSections :=
  mkSections "" [] [] None.

(** What [response.content] can be: a string, or some other object (a
    list of content parts, [None]) on which [.replace] raises. *)
Inductive content := Text (s : string) | NotText.

(** The [if]/[elif] chain that identifies a header line; every branch
    ends in [continue]. *)
Definition section_tag (line : string) : option section :=
  let line_lower := lower line in
  if contains "future trend" line_lower then Some Trend
  else if contains "key insight" line_lower || contains "insights:" line_lower
  then Some Insights
  else if contains "recommend" line_lower then Some Recommendations
  else None.

(** [any(keyword in line_lower for keyword in ['insight', 'recommendation'])] *)
Definition names_a_section (line_lower : string) : bool :=
  contains "insight" line_lower || contains "recommendation" line_lower.

(** One iteration of [for line in lines]. *)
Definition step (st : NarrativeSections) (line : string) : NarrativeSections :=
  let line_lower := lower line in
  match section_tag line with
  | Some sec =>
      mkSections (ns_future_trend st) (ns_insights st) (ns_recommendations st)
                 (Some sec)
  | None =>
      match current_section st with
      | Some Trend =>
          if negb (truthy (ns_future_trend st)) then
            if (15 <? String.length line)%nat && negb (startswith "-" line)
            then mkSections (strip line) (ns_insights st)
                            (ns_recommendations st) (current_section st)
            else st
          else st
      | Some Insights =>
          if startswith "-" line then
            let clean_insight := strip (tail line) in
            if truthy clean_insight && (10 <? String.length clean_insight)%nat
            then mkSections (ns_future_trend st)
                            (ns_insights st ++ [clean_insight])
                            (ns_recommendations st) (current_section st)
            else st
          else if (15 <? String.length line)%nat
                  && (List.length (ns_insights st) <? 3)%nat
                  && negb (names_a_section line_lower)
          then mkSections (ns_future_trend st)
                          (ns_insights st ++ [strip line])
                          (ns_recommendations st) (current_section st)
          else st
      | Some Recommendations =>
          if startswith "-" line then
            let clean_rec := strip (tail line) in
            if truthy clean_rec && (10 <? String.length clean_rec)%nat
            then mkSections (ns_future_trend st) (ns_insights st)
                            (ns_recommendations st ++ [clean_rec])
                            (current_section st)
            else st
          else if (15 <? String.length line)%nat
                  && (List.length (ns_recommendations st) <? 3)%nat
                  && negb (names_a_section line_lower)
          then mkSections (ns_future_trend st) (ns_insights st)
                          (ns_recommendations st ++ [strip line])
                          (current_section st)
          else st
      | None => st
      end
  end.

(** [response_text.replace('**', '').replace('*', '')] *)
Definition clean_text (response_text : string) : string :=
  replace "*" "" (replace "**" "" response_text).

(** [[line.strip() for line in response_text.split('\n') if line.strip()]]
    on the cleaned text. *)
Definition lines_of (response_text : string) : list string :=
  map strip
      (filter (fun line => truthy (strip line))
              (split nl (clean_text response_text))).

(** The state when the loop ends. *)
Definition scan (lines : list string) : NarrativeSections :=
  fold_left step lines start.

Definition captured (response_text : string) : NarrativeSections :=
  scan (lines_of response_text).

Definition low_information : string :=
  "based on current metrics, expect continued trend evolution".

(** The canned sentence picked by the phase word found in the (cleaned)
    response. *)
Definition canned_trend (response_text : string) : string :=
  let t := lower response_text in
  if contains "peaking" t then
    "This keyword is approaching market saturation and may see declining momentum in the coming months"
  else if contains "growing" t then
    "Strong upward trajectory suggests continued growth and increased market interest over the next quarter"
  else if contains "emerging" t then
    "Early-stage trend with potential for significant growth as market awareness increases"
  else if contains "decaying" t then
    "Downward trend indicates declining market interest and reduced content engagement"
  else
    "Market dynamics suggest evolving consumer interest patterns requiring strategic monitoring".

Definition default_insights : list string :=
  [ "Current engagement metrics indicate measurable audience interaction levels";
    "Velocity patterns reveal important momentum shifts in market attention";
    "Category positioning demonstrates competitive landscape opportunities" ].

Definition default_recommendations : list string :=
  [ "Implement weekly monitoring of mention patterns and engagement rates";
    "Develop targeted content strategies aligned with current trend phase";
    "Analyze competitor activities within this keyword category" ].

(** [if len(items) < 2: items.extend(defaults[:3-len(items)])] *)
Definition top_up (items defaults : list string) : list string :=
  if (List.length items <? 2)%nat
  then (items ++ firstn (3 - List.length items) defaults)%list
  else items.

(** Everything after the loop: the quality gate and the returned
    dictionary.  [response_text] is the cleaned text. *)
Definition quality_gate (st : NarrativeSections) (response_text : string)
  : AnalysisResult :=
  let ft := ns_future_trend st in
  let ft :=
    if negb (truthy ft) || contains low_information (lower ft)
    then canned_trend response_text else ft in
  mkAnalysis (strip ft)
             (firstn 3 (top_up (ns_insights st) default_insights))
             (firstn 3 (top_up (ns_recommendations st) default_recommendations)).

(** The result of the [except] branch. *)
Definition parse_failure_fallback : AnalysisResult :=
  mkAnalysis
    "Market analysis suggests dynamic trend patterns requiring continued observation"
    [ "Data indicates active engagement within target audience segments";
      "Velocity measurements show significant momentum characteristics";
      "Category metrics reveal competitive positioning opportunities" ]
    [ "Establish systematic monitoring protocols for trend detection";
      "Develop adaptive content strategies based on engagement feedback";
      "Monitor competitive landscape for strategic positioning opportunities" ].

Definition parse_llm_response_enhanced (c : content) : AnalysisResult :=
  match c with
  | NotText => parse_failure_fallback
  | Text response_text =>
      quality_gate (captured response_text) (clean_text response_text)
  end.

(** *** Lines that the scanner takes as a bullet item *)

Definition bullet_item (line : string) : string := strip (tail line).


End Parser.

Import Parser.

(* ------------------------------------------------------------------ *)
(** ** Exceptions *)

(** The exception classes that can reach a handler of the module. *)
Inductive exn :=
| ValueError | IndexError | AttributeError | KeyError | IOError
| TypeError
| HTTPException.   (* werkzeug: BadRequest, UnsupportedMediaType *)

(** A call that returns or raises. *)
Inductive result (A : Type) : Type :=
| Return (a : A)
| Raise (e : exn).

Arguments Return {A} a.
Arguments Raise {A} e.

Definition bind {A B} (c : result A) (k : A -> result B) : result B :=
  match c with
  | Return a => k a
  | Raise e => Raise e
  end.

Notation "x <- c ;; k" := (bind c (fun x => k))
  (at level 61, c at next level, right associativity).
Notation "' pat <- c ;; k" := (bind c (fun x => match x with pat => k end))
  (at level 61, pat pattern, c at next level, right associativity).

(** [l[i]] on a Python list. *)
Definition getitem {A} (l : list A) (i : nat) : result A :=
  match nth_error l i with
  | Some a => Return a
  | None => Raise IndexError
  end.

(* ------------------------------------------------------------------ *)
(** ** The narrative generator: [analyze_keyword_with_llm] *)

Module Narrative.

(** The client: [llm.invoke(prompt).content], or an exception. *)
Definition client := string -> result content.

Definition dquote : string := String (ascii_of_nat 34) EmptyString.
Definition e_acute : string := String (ascii_of_nat 233) EmptyString.

(** The f-string of the prompt, line by line. *)
Definition prompt_of (keyword category phase : string) (velocity engagement_rate : Q)
           (matched_keyword : string) : string :=
  join (String nl EmptyString)
    [ "";
      "        You are a beauty industry trend analyst for L'Or" ++ e_acute
        ++ "al. Analyze the following keyword data and provide clear, actionable insights.";
      "";
      "        KEYWORD DATA:";
      "        - User Input: " ++ dquote ++ keyword ++ dquote;
      "        - Best Category Match: " ++ dquote ++ replace "_" " " category ++ dquote;
      "        - Similar Keyword: " ++ dquote ++ matched_keyword ++ dquote;
      "        - Trend Phase: " ++ phase;
      "        - Velocity: " ++ format_f 1 velocity ++ " mentions/month (3-month trend)";
      "        - Engagement Rate: " ++ format_f 4 engagement_rate;
      "";
      "        METRICS EXPLAINED:";
      "        - Velocity: Slope of mentions over last 3 months (positive = increasing, negative = decreasing)";
      "        - Engagement Rate: Average user interaction score (likes + comments + shares) / views";
      "        - Phase Classification:";
      "          * Emerging: Rising mentions, low engagement";
      "          * Growing: Rising mentions, high engagement  ";
      "          * Peaking: Slowing mentions, high engagement";
      "          * Decaying: Slowing mentions, low engagement";
      "";
      "        RESPONSE FORMAT:";
      "        Provide exactly 3 sections with clean, professional language:";
      "";
      "        FUTURE TREND:";
      "        [One clear sentence about expected trend direction for next 3-6 months based on the metrics]";
      "";
      "        KEY INSIGHTS:";
      "        - [Business insight 1]";
      "        - [Business insight 2]";
      "        - [Business insight 3]";
      "";
      "        RECOMMENDATIONS:";
      "        - [Actionable recommendation 1]";
      "        - [Actionable recommendation 2]";
      "        - [Actionable recommendation 3]";
      "";
      "        Keep language professional, avoid asterisks, and focus on practical business value for beauty brands.";
      "        " ].

(** Returned when [llm] is [None]: the client was never initialised. *)
Definition unavailable_fallback : AnalysisResult :=
  mkAnalysis
    "AI analysis temporarily unavailable"
    [ "Manual trend analysis required";
      "Data shows current engagement patterns" ]
    [ "Monitor velocity changes";
      "Track engagement trends" ].

(** Returned by the [except] branch around the invocation. *)
Definition invocation_fallback : AnalysisResult :=
  mkAnalysis
    "Trend analysis indicates potential market evolution based on current metrics"
    [ "Current engagement levels suggest active audience interest";
      "Velocity patterns indicate momentum changes in market attention";
      "Category positioning shows competitive landscape dynamics" ]
    [ "Monitor weekly mention patterns for early trend detection";
      "Track competitor engagement strategies in this category";
      "Adjust content strategy based on audience engagement feedback" ].

Definition analyze_keyword_with_llm (llm : option client)
           (keyword category phase : string) (velocity engagement_rate : Q)
           (matched_keyword : string) : AnalysisResult :=
  match llm with
  | None => unavailable_fallback
  | Some invoke =>
      let prompt :=
        prompt_of keyword category phase velocity engagement_rate matched_keyword in
      match invoke prompt with
      | Return analysis_text => parse_llm_response_enhanced analysis_text
      | Raise _ => invocation_fallback
      end
  end.

End Narrative.

Import Narrative.

(* ------------------------------------------------------------------ *)
(** ** The matcher: [load_categories] and [keyword_checker] *)

Module Matcher.

(** A row of a per-category table [third_layer_data/<category>_keyword_trend_phases.csv]. *)
Record KeywordTrendRecord := mkRecord {
  keyword : string;
  phase : string;
  velocity : Q;
  engagement_rate : Q
}.

(** What the process holds after start-up, and the services it calls.
    The embedding model and the cosine kernel of scikit-learn are taken
    as functions; a similarity is the exact value of the float. *)
Record Process := mkProcess {
  vec : Type;
  model_encode : string -> vec;
  cosine : vec -> vec -> Q;
  exn_str : exn -> string;                       (* [str(e)] *)
  os_path_exists : string -> bool;
  pd_read_csv : string -> result (list KeywordTrendRecord);
  llm : option client;
  categories_list : list string;
  category_embeddings : list (vec)
}.

(** [load_categories]: the category column of [outputs/category.csv]
    and its embeddings, or two empty lists when reading raises. *)
Definition load_categories {V} (encode : string -> V)
           (category_column : result (list string)) : list string * list V :=
  match category_column with
  | Return categories => (categories, map encode categories)
  | Raise _ => ([], [])
  end.

(** [cosine_similarity(X, Y)[0]] of scikit-learn for a one-row [X]:
    input validation rejects an empty [Y]. *)
Definition cosine_similarity {V} (cos : V -> V -> Q) (x : V) (ys : list V)
  : result (list Q) :=
  match ys with
  | [] => Raise ValueError
  | _ => Return (map (cos x) ys)
  end.

Definition Qgt_bool (x y : Q) : bool :=
  match (x ?= y)%Q with Gt => true | _ => false end.

(** [np.argmax] on a one-dimensional array of finite floats: the running
    maximum is replaced only by a strictly larger entry. *)
Fixpoint argmax_loop (mp : Q) (max_ind : nat) (i : nat) (ip : list Q) : nat :=
  match ip with
  | [] => max_ind
  | x :: rest =>
      if Qgt_bool x mp
      then argmax_loop x i (S i) rest
      else argmax_loop mp max_ind (S i) rest
  end.

Definition np_argmax (a : list Q) : result nat :=
  match a with
  | [] => Raise ValueError
  | x :: rest => Return (argmax_loop x 0 1 rest)
  end.

(** [get_phase_description] *)
Definition get_phase_description (phase : string) : string :=
  if String.eqb phase "Emerging" then
    "This keyword is in its early adoption phase with growing interest."
  else if String.eqb phase "Growing" then
    "This keyword is gaining momentum and popularity rapidly."
  else if String.eqb phase "Peaking" then
    "This keyword has reached its peak popularity and is widely discussed."
  else if String.eqb phase "Decaying" then
    "This keyword is declining in popularity and mentions."
  else if String.eqb phase "Stable" then
    "This keyword maintains consistent engagement over time."
  else "This keyword is in the " ++ phase ++ " phase.".

(** A JSON value as Python holds it once parsed: [None], a [bool], a
    number, a [str], a [list], or a [dict] given by its members. *)
#[warnings="-register-all"]
Inductive json :=
| JNull
| JBool (b : bool)
| JNumber (x : Q)
| JString (s : string)
| JArray (items : list json)
| JObject (members : list (string * json)).

(** The body of the POST request: one that [request.get_json()] cannot
    turn into a value (no body, or a body that is not JSON), or a JSON
    value. *)
Inductive request_json :=
| NotJson
| Body (data : json).

(** [request.get_json()]; the exception is one of werkzeug's. *)
Definition get_json (request : request_json) : result json :=
  match request with
  | NotJson => Raise HTTPException
  | Body data => Return data
  end.

Fixpoint member (k : string) (d : list (string * json)) : option json :=
  match d with
  | [] => None
  | (k', v) :: r => if String.eqb k k' then Some v else member k r
  end.

(** The truth value of [data] in [not data]. *)
Definition json_truth (data : json) : bool :=
  match data with
  | JNull => false
  | JBool b => b
  | JNumber x => negb (Qeq_bool x 0)
  | JString s => truthy s
  | JArray items => match items with [] => false | _ => true end
  | JObject members => match members with [] => false | _ => true end
  end.

(** [k in data]: a key of a [dict], an item of a [list], a substring of
    a [str]; any other value is not iterable. *)
Definition json_contains (k : string) (data : json) : result bool :=
  match data with
  | JObject members =>
      Return (match member k members with Some _ => true | None => false end)
  | JArray items =>
      Return (existsb (fun v => match v with
                                | JString s => String.eqb s k
                                | _ => false
                                end) items)
  | JString s => Return (contains k s)
  | _ => Raise TypeError
  end.

(** [data[k]] for a string [k]: only a [dict] can be indexed by it. *)
Definition json_item (k : string) (data : json) : result json :=
  match data with
  | JObject members =>
      match member k members with
      | Some v => Return v
      | None => Raise KeyError
      end
  | _ => Raise TypeError
  end.

(** [data['keyword'].strip()]: only a [str] has the method. *)
Definition strip_value (v : json) : result string :=
  match v with
  | JString s => Return (strip s)
  | _ => Raise AttributeError
  end.

(** The success dictionary. *)
Record MatchResult := mkMatch {
  user_keyword : string;
  matched_category : string;
  category_similarity : Q;
  matched_keyword : string;
  keyword_similarity : Q;
  r_phase : string;
  r_velocity : Q;
  r_engagement_rate : Q;
  velocity_description : string;
  engagement_description : string;
  phase_description : string;
  r_future_trend : string;
  r_insights : list string;
  r_recommendations : list string
}.

(** The JSON bodies the endpoint sends. *)
Inductive payload :=
| Error (error : string)
| CategoryError (error : string) (category : string) (category_similarity : Q)
| Matched (r : MatchResult).

Definition response := (payload * nat)%type.

Section Endpoint.

Variable p : Process.

(** Step 1: the nearest category. *)
Definition nearest_category (user_embedding : vec p) : result (string * Q) :=
  similarities <- cosine_similarity (cosine p) user_embedding (category_embeddings p) ;;
  best_category_idx <- np_argmax similarities ;;
  best_category <- getitem (categories_list p) best_category_idx ;;
  category_similarity <- getitem similarities best_category_idx ;;
  Return (best_category, category_similarity).

(** Step 3: the closest keyword of the table, with its row. *)
Definition closest_keyword (user_embedding : vec p)
           (keyword_df : list KeywordTrendRecord)
  : result (string * Q * KeywordTrendRecord) :=
  let category_keywords := map keyword keyword_df in
  let category_keyword_embeddings := map (model_encode p) category_keywords in
  keyword_similarities <-
    cosine_similarity (cosine p) user_embedding category_keyword_embeddings ;;
  best_keyword_idx <- np_argmax keyword_similarities ;;
  best_keyword_match <- getitem category_keywords best_keyword_idx ;;
  keyword_similarity <- getitem keyword_similarities best_keyword_idx ;;
  keyword_data <- getitem keyword_df best_keyword_idx ;;
  Return (best_keyword_match, keyword_similarity, keyword_data).

(** The body of the [try] block. *)
Definition keyword_checker_try (request : request_json) : result response :=
  data <- get_json request ;;
  if negb (json_truth data)
  then Return (Error "Keyword is required", 400)
  else
    has_keyword <- json_contains "keyword" data ;;
    if negb has_keyword
    then Return (Error "Keyword is required", 400)
    else
          v <- json_item "keyword" data ;;
          user_keyword <- strip_value v ;;
          if negb (truthy user_keyword)
          then Return (Error "Keyword cannot be empty", 400)
          else
            let user_embedding := model_encode p user_keyword in
            '(best_category, category_similarity) <- nearest_category user_embedding ;;
            let csv_filename :=
              "third_layer_data/" ++ best_category ++ "_keyword_trend_phases.csv" in
            if negb (os_path_exists p csv_filename)
            then Return (CategoryError
                           ("Data file not found for category: " ++ best_category)
                           best_category category_similarity, 404)
            else
              keyword_df <- pd_read_csv p csv_filename ;;
              match keyword_df with
              | [] => Return (CategoryError
                                ("No keyword data found for category: " ++ best_category)
                                best_category category_similarity, 404)
              | _ =>
                  '(best_keyword_match, keyword_similarity, keyword_data) <-
                    closest_keyword user_embedding keyword_df ;;
                  let llm_analysis :=
                    analyze_keyword_with_llm (llm p) user_keyword best_category
                      (phase keyword_data) (velocity keyword_data)
                      (engagement_rate keyword_data) best_keyword_match in
                  Return
                    (Matched
                       (mkMatch user_keyword best_category
                          (py_round 3 category_similarity)
                          best_keyword_match
                          (py_round 3 keyword_similarity)
                          (phase keyword_data) (velocity keyword_data)
                          (engagement_rate keyword_data)
                          (format_f 1 (velocity keyword_data)
                             ++ " mentions per month (past 3 months)")
                          ("Popularity score: "
                             ++ format_f 3 (engagement_rate keyword_data))
                          (get_phase_description (phase keyword_data))
                          (future_trend llm_analysis)
                          (insights llm_analysis)
                          (recommendations llm_analysis)),
                     200)
              end.

(** The endpoint: any exception of the body becomes a 500 answer. *)
Definition keyword_checker (request : request_json) : response :=
  match keyword_checker_try request with
  | Return r => r
  | Raise e => (Error ("Internal server error: " ++ exn_str p e), 500)
  end.

End Endpoint.

(** The process as start-up leaves it: the two globals come from
    [load_categories]. *)
Definition started (V : Type) (encode : string -> V) (cos : V -> V -> Q)
           (text : exn -> string) (exists_ : string -> bool)
           (read : string -> result (list KeywordTrendRecord))
           (service : option client)
           (category_column : result (list string)) : Process :=
  let '(categories, embeddings) := load_categories encode category_column in
  mkProcess V encode cos text exists_ read service categories embeddings.

End Matcher.

Import Matcher.

(* ------------------------------------------------------------------ *)
(** ** The reporting endpoints *)

Module Reports.

(** A keyword entry of [outputs/keyword_trend_insights.json]; a field
    is [None] when the key is absent. *)
Record KeywordInfo := mkKeywordInfo {
  kw_keyword : option string;
  kw_growth_rate : option Q;
  kw_trend : option string
}.

Record CategoryTrends := mkCategoryTrends {
  ct_category : option string;
  ct_keywords : option (list KeywordInfo)
}.

(** A row of [outputs/category_trends.csv]. *)
Record CategoryRow := mkCategoryRow {
  cr_category : option string;
  cr_engagement_rate : option Q;
  cr_viewCount : option Q;
  cr_likeCount : option Q;
  cr_commentCount : option Q
}.

(** [d.get(key, default)] *)
Definition get {A} (field : option A) (default : A) : A :=
  match field with Some a => a | None => default end.

Definition growth_rate_of (kw : KeywordInfo) : Q := get (kw_growth_rate kw) 0%Q.
Definition keywords_of (c : CategoryTrends) : list KeywordInfo := get (ct_keywords c) [].

(** [sum(...)] *)
Definition Qsum (l : list Q) : Q := fold_left Qplus l 0%Q.

(** [sum(...) / len(keywords)] *)
Definition mean_growth (keywords : list KeywordInfo) : Q :=
  (Qsum (map growth_rate_of keywords) / inject_Z (Z.of_nat (List.length keywords)))%Q.

(** [int(x)]: truncation towards zero. *)
Definition py_int (x : Q) : Z := Z.quot (Qnum x) (Zpos (Qden x)).

(** [sorted(l, key=key, reverse=True)]: descending and stable. *)
Section Sorting.
Context {A : Type} (key : A -> Q).

Fixpoint insert_desc (x : A) (l : list A) : list A :=
  match l with
  | [] => [x]
  | y :: r => if Qle_bool (key y) (key x) then x :: y :: r
              else y :: insert_desc x r
  end.

Definition sorted_desc (l : list A) : list A := fold_right insert_desc [] l.
End Sorting.

Definition opt_is (o : option string) (s : string) : bool :=
  match o with Some t => String.eqb t s | None => false end.

Definition count_trend (t : string) (keywords : list KeywordInfo) : nat :=
  List.length (filter (fun kw => opt_is (kw_trend kw) t) keywords).

(** *** [get_metrics] *)

Record Metrics := mkMetrics {
  total_keywords : nat;
  m_trending_up : nat;
  m_trending_down : nat;
  top_growth_rate : string;
  top_keyword : string
}.

(** The loop that keeps the largest growth rate above 0 and its keyword. *)
Definition top_growth_of (keyword_trends : list CategoryTrends) : Q * string :=
  fold_left
    (fun (top : Q * string) kw =>
       if Qgt_bool (growth_rate_of kw) (fst top)
       then (growth_rate_of kw, get (kw_keyword kw) "N/A")
       else top)
    (flat_map keywords_of keyword_trends) (0%Q, "N/A").

Definition get_metrics (keyword_trends : list CategoryTrends) : Metrics :=
  let all := flat_map keywords_of keyword_trends in
  let '(top_growth, top_kw) := top_growth_of keyword_trends in
  mkMetrics (List.length all) (count_trend "up" all) (count_trend "down" all)
            (format_f 1 top_growth ++ "%") top_kw.

(** *** [get_category_breakdown] (the icon glyph is left out) *)

Record Breakdown := mkBreakdown {
  bd_name : string;
  bd_count : nat;
  bd_percentage : Z;
  bd_growth : string;
  bd_trend : string;
  bd_viewCount : Z;
  bd_likeCount : Z;
  bd_commentCount : Z;
  bd_engagement_rate : Q
}.

(** The keywords of the first entry whose category is [category_name]. *)
Fixpoint find_keywords (category_name : string) (keyword_trends : list CategoryTrends)
  : list KeywordInfo :=
  match keyword_trends with
  | [] => []
  | trend_category :: rest =>
      if opt_is (ct_category trend_category) category_name
      then keywords_of trend_category
      else find_keywords category_name rest
  end.

(** The average growth of a category, 0 when it has no keywords. *)
Definition category_growth (keyword_trends : list CategoryTrends)
           (category_data_item : CategoryRow) : Q :=
  match find_keywords (get (cr_category category_data_item) "") keyword_trends with
  | [] => 0%Q
  | category_keywords => mean_growth category_keywords
  end.

Definition breakdown_growth (growth_rate : Q) : string :=
  if Qgt_bool growth_rate 0 then "+" ++ format_f 1 growth_rate ++ "%"
  else format_f 1 growth_rate ++ "%".

Definition breakdown_entry (keyword_trends : list CategoryTrends)
           (category_data_item : CategoryRow) : Breakdown :=
  let category_name := get (cr_category category_data_item) "" in
  let category_keywords := find_keywords category_name keyword_trends in
  let growth_rate := category_growth keyword_trends category_data_item in
  mkBreakdown
    category_name
    (List.length category_keywords)
    (Z.min 100 (Z.max 0 (py_int (get (cr_engagement_rate category_data_item) 0 * 1000)%Q)))
    (breakdown_growth growth_rate)
    (if Qgt_bool growth_rate 0 then "up" else "down")
    (py_int (get (cr_viewCount category_data_item) 0%Q))
    (py_int (get (cr_likeCount category_data_item) 0%Q))
    (py_int (get (cr_commentCount category_data_item) 0%Q))
    (get (cr_engagement_rate category_data_item) 0%Q).

Definition get_category_breakdown (keyword_trends : list CategoryTrends)
           (category_data : list CategoryRow) : list Breakdown :=
  sorted_desc (fun b => inject_Z (bd_percentage b))
              (map (breakdown_entry keyword_trends) category_data).

(** *** [get_trend_analysis] (the icon glyph is left out) *)

Record TopKeyword := mkTopKeyword {
  tk_keyword : string;
  tk_growth : string;
  tk_trend : string;
  isHot : bool
}.

Record Analysis := mkAnalysisRow {
  an_category : string;
  an_trend : string;
  change : string;
  rank : nat;
  an_keywords : list TopKeyword;
  avg_growth : Q;
  trending_up_count : nat;
  trending_down_count : nat
}.

(** [f"+{x:.1f}%" if x >= 0 else f"{x:.1f}%"] *)
Definition signed_percent (x : Q) : string :=
  if Qle_bool 0 x then "+" ++ format_f 1 x ++ "%" else format_f 1 x ++ "%".

Definition top_keyword_row (kw : KeywordInfo) : TopKeyword :=
  let growth_rate := growth_rate_of kw in
  mkTopKeyword (get (kw_keyword kw) "") (signed_percent growth_rate)
               (get (kw_trend kw) "stable") (Qgt_bool growth_rate 10).

Definition analysis_row (i : nat) (keywords : list KeywordInfo)
           (category_name : string) : Analysis :=
  let avg := mean_growth keywords in
  mkAnalysisRow
    category_name
    (if Qgt_bool avg 2 then "up"
     else if Qgt_bool (- (2)) avg then "down" else "stable")
    (signed_percent avg)
    (i + 1)
    (map top_keyword_row (firstn 5 (sorted_desc growth_rate_of keywords)))
    avg
    (count_trend "up" keywords)
    (count_trend "down" keywords).

(** The first loop: one row per category that has keywords. *)
Fixpoint analysis_rows (i : nat) (keyword_trends : list CategoryTrends) : list Analysis :=
  match keyword_trends with
  | [] => []
  | category_data :: rest =>
      match keywords_of category_data with
      | [] => analysis_rows (S i) rest
      | keywords =>
          analysis_row i keywords (get (ct_category category_data) "")
            :: analysis_rows (S i) rest
      end
  end.

(** The last loop: [item['rank'] = i + 1]. *)
Fixpoint rerank (i : nat) (l : list Analysis) : list Analysis :=
  match l with
  | [] => []
  | a :: r =>
      mkAnalysisRow (an_category a) (an_trend a) (change a) (i + 1)
                    (an_keywords a) (avg_growth a)
                    (trending_up_count a) (trending_down_count a)
        :: rerank (S i) r
  end.

Definition get_trend_analysis (keyword_trends : list CategoryTrends) : list Analysis :=
  rerank 0 (sorted_desc avg_growth (analysis_rows 0 keyword_trends)).

End Reports.

Import Reports.

(* ------------------------------------------------------------------ *)
(** ** More reporting endpoints: [get_trending_keywords], [get_trend_summary] *)

Module MoreReports.

(** [get_trending_keywords]: every keyword entry gets the name of its
    category under ['category']; the entries are sorted by growth rate,
    largest first, and the first 20 are returned.  An entry is kept here
    as the pair of the original entry and the category written into it.
    The source writes the key in place on the loaded entries; no function
    of this development reads it back. *)
Definition tag_keywords (category_info : CategoryTrends) : list (KeywordInfo * string) :=
  let category := get (ct_category category_info) "" in
  map (fun keyword_info => (keyword_info, category)) (keywords_of category_info).

Definition all_keywords (keyword_trends : list CategoryTrends)
  : list (KeywordInfo * string) :=
  flat_map tag_keywords keyword_trends.

Definition get_trending_keywords (keyword_trends : list CategoryTrends)
  : list (KeywordInfo * string) :=
  firstn 20 (sorted_desc (fun x => growth_rate_of (fst x)) (all_keywords keyword_trends)).

(** [max(iterable)]: the first largest item, [ValueError] on an empty
    iterable. *)
Definition py_max (l : list Q) : result Q :=
  match l with
  | [] => Raise ValueError
  | x :: rest => Return (fold_left (fun m y => if Qgt_bool y m then y else m) rest x)
  end.

Record Summary := mkSummary {
  categories_trending_up_percentage : string;
  highest_growth : string;
  hot_keywords_count : nat;
  avg_category_growth : string
}.

(** The locals of the loop of [get_trend_summary]. *)
Record SummaryLoop := mkSummaryLoop {
  categories_trending_up : nat;
  categories_trending_down : nat;
  all_growth_rates : list Q;
  hot_count : nat
}.

Definition summary_step (st : SummaryLoop) (category_data : CategoryTrends) : SummaryLoop :=
  match keywords_of category_data with
  | [] => st
  | keywords =>
      let avg_growth := mean_growth keywords in
      mkSummaryLoop
        (if Qgt_bool avg_growth 2 then S (categories_trending_up st)
         else categories_trending_up st)
        (if Qgt_bool avg_growth 2 then categories_trending_down st
         else if Qgt_bool (- (2)) avg_growth then S (categories_trending_down st)
              else categories_trending_down st)
        (all_growth_rates st ++ [avg_growth])
        (hot_count st
         + List.length (filter (fun kw => Qgt_bool (growth_rate_of kw) 10) keywords))
  end.

(** [get_trend_summary]; the exception of [max] is not handled in the
    function. *)
Definition get_trend_summary (keyword_trends : list CategoryTrends) : result Summary :=
  let total_categories := List.length keyword_trends in
  let st := fold_left summary_step keyword_trends (mkSummaryLoop 0 0 [] 0) in
  highest_growth <- py_max (map growth_rate_of (flat_map keywords_of keyword_trends)) ;;
  let avg_category_growth :=
    match all_growth_rates st with
    | [] => 0%Q
    | rates => (Qsum rates / inject_Z (Z.of_nat (List.length rates)))%Q
    end in
  let percentage_trending_up :=
    if (0 <? total_categories)%nat
    then (inject_Z (Z.of_nat (categories_trending_up st))
          / inject_Z (Z.of_nat total_categories) * 100)%Q
    else 0%Q in
  Return (mkSummary (format_f 0 percentage_trending_up ++ "%")
                    ("+" ++ format_f 1 highest_growth ++ "%")
                    (hot_count st)
                    ("+" ++ format_f 1 avg_category_growth ++ "%")).

End MoreReports.

Import MoreReports.

(* ------------------------------------------------------------------ *)
(** ** Sample inputs and the predicates the statements use *)

Definition text_of_lines (l : list string) : string :=
  join (String nl EmptyString) l.

Definition sample_response : string :=
  text_of_lines
    [ "**FUTURE TREND:**";
      "Interest will keep rising over the next two quarters";
      "";
      "KEY INSIGHTS:";
      "- Engagement is well above the category average";
      "- Mentions doubled within three months";
      "- *Creators* drive most of the reach";
      "- A fourth insight that is never returned";
      "RECOMMENDATIONS:";
      "  - Launch creator partnerships this quarter";
      "- Increase paid media spend modestly" ].



Definition long_sentence (line : string) : bool :=
  (15 <? String.length line)%nat && negb (startswith "-" line).


Definition two_items_response : string :=
  text_of_lines
    [ "KEY INSIGHTS:";
      "- Engagement is well above the category average";
      "- Mentions doubled within three months";
      "RECOMMENDATIONS:";
      "- Launch creator partnerships this quarter";
      "- Increase paid media spend modestly" ].

(** [i] is the first position of a largest entry of [sims]. *)
Definition first_maximum (sims : list Q) (i : nat) : Prop :=
  exists s,
    nth_error sims i = Some s
    /\ (forall j sj, nth_error sims j = Some sj -> (sj <= s)%Q)
    /\ (forall j sj, j < i -> nth_error sims j = Some sj -> (sj < s)%Q).

(** A small process to run the endpoint on: an embedding is the length of
    the text, and two texts are the closer the nearer their lengths. *)
Definition demo_rows : list KeywordTrendRecord :=
  [ mkRecord "retinol" "Peaking" (31 # 10) (12 # 1000);
    mkRecord "hyaluronic acid" "Growing" (123 # 10) (45 # 1000);
    mkRecord "vitamin c" "Emerging" (58 # 10) (9 # 1000) ].

Definition demo_text (e : exn) : string :=
  match e with
  | ValueError => "Expected 2D array, got 1D array instead"
  | IndexError => "list index out of range"
  | AttributeError => "object has no attribute 'strip'"
  | KeyError => "'keyword'"
  | IOError => "No such file or directory"
  | TypeError => "argument of type 'bool' is not iterable"
  | HTTPException => "400 Bad Request: The browser (or proxy) sent a request that this server could not understand."
  end.

Definition demo_process (category_column : result (list string)) : Process :=
  started Z (fun s => Z.of_nat (String.length s))
          (fun u v => inject_Z (- Z.abs (u - v)))
          demo_text
          (fun f => String.eqb f "third_layer_data/Skincare_keyword_trend_phases.csv"
                    || String.eqb f "third_layer_data/Haircare_keyword_trend_phases.csv")
          (fun f =>
             if String.eqb f "third_layer_data/Skincare_keyword_trend_phases.csv"
             then Return demo_rows
             else if String.eqb f "third_layer_data/Haircare_keyword_trend_phases.csv"
                  then Return []
                  else Raise IOError)
          None
          category_column.

Definition ask (kw : string) : request_json :=
  Body (JObject [("keyword", JString kw)]).

(** An answer of the catch-all handler: status 500 and the generic text. *)
Definition generic_internal_error (r : response) : bool :=
  (snd r =? 500)%nat
  && match fst r with
     | Error msg => startswith "Internal server error: " msg
     | _ => false
     end.

Definition dataset_file (category : string) : string :=
  "third_layer_data/" ++ category ++ "_keyword_trend_phases.csv".

Definition flat_trends : list CategoryTrends :=
  [ mkCategoryTrends (Some "Skincare")
      (Some [ mkKeywordInfo (Some "retinol") (Some 5%Q) (Some "up");
              mkKeywordInfo (Some "toner") (Some (- (5))%Q) (Some "down") ]) ].

Definition flat_rows : list CategoryRow :=
  [ mkCategoryRow (Some "Skincare") (Some (45 # 1000)%Q) (Some 1200%Q) (Some 80%Q)
                  (Some 12%Q) ].

Definition mixed_trends : list CategoryTrends :=
  [ mkCategoryTrends (Some "Skincare")
      (Some [ mkKeywordInfo (Some "retinol") (Some (125 # 10)%Q) (Some "up");
              mkKeywordInfo (Some "toner") (Some (- (3))%Q) (Some "down") ]);
    mkCategoryTrends (Some "Makeup")
      (Some [ mkKeywordInfo (Some "contour") (Some (- (5))%Q) (Some "down");
              mkKeywordInfo (Some "lip oil") None None ]) ].

Definition mixed_rows : list CategoryRow :=
  [ mkCategoryRow (Some "Makeup") (Some (30 # 1000)%Q) (Some 900%Q) (Some 40%Q) (Some 7%Q);
    mkCategoryRow (Some "Skincare") (Some (45 # 1000)%Q) (Some 1200%Q) (Some 80%Q)
                  (Some 12%Q) ].

(** [s] with every asterisk taken out. *)
Fixpoint without_stars (s : string) : string :=
  match s with
  | EmptyString => EmptyString
  | String c r =>
      if Ascii.eqb c "*"%char then without_stars r else String c (without_stars r)
  end.

(** The shape every analysis is said to have: a trend sentence that is
    not empty and two or three items in each list. *)
Definition well_shaped (a : AnalysisResult) : Prop :=
  future_trend a <> ""
  /\ 2 <= List.length (insights a) <= 3
  /\ 2 <= List.length (recommendations a) <= 3.

Definition longer_than_10 (s : string) : Prop := 10 < String.length s.

Definition known_phases : list string :=
  [ "Emerging"; "Growing"; "Peaking"; "Decaying"; "Stable" ].

(** Largest first. *)
Definition Qdescending (l : list Q) : Prop :=
  Sorted.StronglySorted (fun x y => (y <= x)%Q) l.

Definition Zdescending (l : list Z) : Prop :=
  Sorted.StronglySorted (fun x y => (y <= x)%Z) l.

Definition has_keywords (c : CategoryTrends) : bool :=
  match keywords_of c with [] => false | _ => true end.

Definition falling_trends : list CategoryTrends :=
  [ mkCategoryTrends (Some "Skincare")
      (Some [ mkKeywordInfo (Some "toner") (Some (- (3))%Q) (Some "down");
              mkKeywordInfo (Some "mist") (Some (- (45 # 10))%Q) (Some "down") ]);
    mkCategoryTrends (Some "Fragrance") None ].


(** A process whose dataset files all exist and cannot be read. *)
Definition unreadable_process : Process :=
  mkProcess Z (fun s => Z.of_nat (String.length s))
            (fun u v => inject_Z (- Z.abs (u - v)))
            demo_text (fun _ => true) (fun _ => Raise IOError) None
            ["Makeup"; "Skincare"] [6%Z; 8%Z].


(** A process whose dataset files all exist with 0 bytes: pandas raises
    [EmptyDataError], a [ValueError], on a file without a header line. *)
Definition empty_file_process : Process :=
  mkProcess Z (fun s => Z.of_nat (String.length s))
            (fun u v => inject_Z (- Z.abs (u - v)))
            (fun e => match e with
                      | ValueError => "No columns to parse from file"
                      | _ => demo_text e
                      end)
            (fun _ => true) (fun _ => Raise ValueError) None
            ["Makeup"; "Skincare"] [6%Z; 8%Z].

Definition known_phase_sentences : list string :=
  [ "This keyword is in its early adoption phase with growing interest.";
    "This keyword is gaining momentum and popularity rapidly.";
    "This keyword has reached its peak popularity and is widely discussed.";
    "This keyword is declining in popularity and mentions.";
    "This keyword maintains consistent engagement over time." ].

(* ================================================================== *)
(** * Properties *)

(** ** Runs on sample inputs *)

Example strip_ex : strip "   - a b  " = "- a b". Proof. reflexivity. Qed.
Example replace_ex : replace "**" "" "a***b**c" = "a*bc". Proof. reflexivity. Qed.
Example split_ex : split "," "a,,b," = ["a"; ""; "b"; ""]. Proof. reflexivity. Qed.
Example format_ex1 : format_f 1 (123 # 10)%Q = "12.3". Proof. reflexivity. Qed.
Example format_ex2 : format_f 1 (- 4 # 100)%Q = "-0.0". Proof. reflexivity. Qed.
Example format_ex3 : format_f 3 (45 # 1000)%Q = "0.045". Proof. reflexivity. Qed.
Example format_ex4 : format_f 1 (25 # 100)%Q = "0.2". Proof. reflexivity. Qed.
Example format_ex5 : format_f 0 (1005 # 10)%Q = "100". Proof. reflexivity. Qed.
Example format_ex6 : format_f 1 (1234567 # 100)%Q = "12345.7". Proof. reflexivity. Qed.

Example sample_parse :
  parse_llm_response_enhanced (Text sample_response) =
  mkAnalysis "Interest will keep rising over the next two quarters"
    [ "Engagement is well above the category average";
      "Mentions doubled within three months";
      "Creators drive most of the reach" ]
    [ "Launch creator partnerships this quarter";
      "Increase paid media spend modestly" ].
Proof. vm_compute. reflexivity. Qed.

(** ** The scanner *)

Section ScannerFacts.

Lemma step_header (st : NarrativeSections) (line : string) (sec : section) :
  section_tag line = Some sec ->
  step st line =
  mkSections (ns_future_trend st) (ns_insights st) (ns_recommendations st) (Some sec).
Proof. intros H. unfold step. rewrite H. reflexivity. Qed.

Lemma long_is_truthy (s : string) (n : nat) :
  (n <? String.length s)%nat = true -> truthy s = true.
Proof.
  destruct s as [|c r]; simpl; [|reflexivity].
  intros H. apply Nat.ltb_lt in H. lia.
Qed.








Lemma top_up_long (items defaults : list string) :
  2 <= List.length items -> top_up items defaults = items.
Proof.
  intros H. unfold top_up.
  destruct (Nat.ltb_spec (List.length items) 2); [lia|reflexivity].
Qed.


End ScannerFacts.

(** ** The parser *)

(** With the marker and the blank after it removed, a bullet line is its
    item, trimmed. *)
Lemma bullet_item_of_marked_line (item : string) :
  bullet_item ("- " ++ item) = strip item /\ bullet_item ("-" ++ item) = strip item.
Proof. split; reflexivity. Qed.








(** C6. On the empty string the parser returns the generic canned trend
    sentence, which is not empty, and the three canned insights and the
    three canned recommendations. *)
Theorem parse_empty_string :
  let r := parse_llm_response_enhanced (Text "") in
  future_trend r
  = "Market dynamics suggest evolving consumer interest patterns requiring strategic monitoring"
  /\ future_trend r <> ""
  /\ insights r = default_insights
  /\ recommendations r = default_recommendations
  /\ List.length (insights r) = 3
  /\ List.length (recommendations r) = 3.
Proof.
  vm_compute. repeat split; try reflexivity. discriminate.
Qed.

(** C10. When the scanner has captured exactly two insights the parser
    returns those two and nothing else, and likewise for recommendations:
    canned items are added only below two captured items. *)
Theorem two_captured_items_stay_two (text : string) :
  (List.length (ns_insights (captured text)) = 2 ->
   insights (parse_llm_response_enhanced (Text text)) = ns_insights (captured text)
   /\ List.length (insights (parse_llm_response_enhanced (Text text))) = 2)
  /\
  (List.length (ns_recommendations (captured text)) = 2 ->
   recommendations (parse_llm_response_enhanced (Text text))
   = ns_recommendations (captured text)
   /\ List.length (recommendations (parse_llm_response_enhanced (Text text))) = 2).
Proof.
  unfold parse_llm_response_enhanced, quality_gate. cbn [insights recommendations].
  split; intros H2; rewrite top_up_long by lia.
  - destruct (ns_insights (captured text)) as [|a [|b [|c l]]]; try discriminate.
    split; reflexivity.
  - destruct (ns_recommendations (captured text)) as [|a [|b [|c l]]]; try discriminate.
    split; reflexivity.
Qed.

Lemma two_captured_items_stay_two_witness :
  List.length (insights (parse_llm_response_enhanced (Text two_items_response))) = 2
  /\ List.length (recommendations (parse_llm_response_enhanced (Text two_items_response))) = 2.
Proof.
  split.
  - apply (proj1 (two_captured_items_stay_two two_items_response)).
    vm_compute. reflexivity.
  - apply (proj2 (two_captured_items_stay_two two_items_response)).
    vm_compute. reflexivity.
Defined.

(** ** The narrative generator *)

(** C1, as stated, fails: the result returned when the client was never
    initialised has two insights, not three. *)
Lemma unavailable_fallback_counterexample :
  List.length
    (insights (analyze_keyword_with_llm None "dewy glow serum" "Skincare & Anti-Aging"
                 "Growing" (123 # 10) (45 # 1000) "hyaluronic acid")) <> 3.
Proof. vm_compute. discriminate. Qed.

(** C1, amended. Both canned results have a trend sentence that is not
    empty; the one for a client that was never initialised has exactly
    two insights and two recommendations, the one for an invocation that
    raises has exactly three of each. *)
Theorem fallbacks_structure
        (keyword category phase : string) (velocity engagement_rate : Q)
        (matched_keyword : string) :
  (let r := analyze_keyword_with_llm None keyword category phase velocity
              engagement_rate matched_keyword in
   r = unavailable_fallback
   /\ future_trend r <> ""
   /\ List.length (insights r) = 2
   /\ List.length (recommendations r) = 2)
  /\
  (forall (invoke : client) (e : exn),
      invoke (prompt_of keyword category phase velocity engagement_rate matched_keyword)
      = Raise e ->
      let r := analyze_keyword_with_llm (Some invoke) keyword category phase velocity
                 engagement_rate matched_keyword in
      r = invocation_fallback
      /\ future_trend r <> ""
      /\ List.length (insights r) = 3
      /\ List.length (recommendations r) = 3).
Proof.
  split.
  - simpl. repeat split; discriminate.
  - intros invoke e Hraise. unfold analyze_keyword_with_llm. rewrite Hraise.
    simpl. repeat split; discriminate.
Qed.

Lemma fallbacks_structure_witness :
  let r := analyze_keyword_with_llm (Some (fun _ => Raise IOError))
             "dewy glow serum" "Skincare & Anti-Aging" "Growing"
             (123 # 10) (45 # 1000) "hyaluronic acid" in
  r = invocation_fallback
  /\ future_trend r <> ""
  /\ List.length (insights r) = 3
  /\ List.length (recommendations r) = 3.
Proof.
  apply (proj2 (fallbacks_structure "dewy glow serum" "Skincare & Anti-Aging"
                  "Growing" (123 # 10) (45 # 1000) "hyaluronic acid")
               (fun _ => Raise IOError) IOError).
  reflexivity.
Defined.

(** ** The matcher *)

Section ArgmaxFacts.

Lemma Qgt_bool_true (x y : Q) : Qgt_bool x y = true -> (y < x)%Q.
Proof.
  unfold Qgt_bool. destruct (x ?= y)%Q eqn:E; try discriminate.
  intros _. now apply Qgt_alt.
Qed.

Lemma Qgt_bool_false (x y : Q) : Qgt_bool x y = false -> (x <= y)%Q.
Proof.
  unfold Qgt_bool. intros H. apply Qle_alt. intros E. now rewrite E in H.
Qed.

Lemma nth_error_snoc {A} (l : list A) (x : A) (j : nat) (y : A) :
  nth_error (l ++ [x]) j = Some y ->
  (j < List.length l /\ nth_error l j = Some y) \/ (j = List.length l /\ y = x).
Proof.
  intros H. destruct (Nat.lt_ge_cases j (List.length l)) as [Hj|Hj].
  - left. split; [assumption|]. now rewrite nth_error_app1 in H.
  - right. rewrite nth_error_app2 in H by assumption.
    destruct (j - List.length l) as [|k] eqn:E; simpl in H.
    + split; [lia | congruence].
    + destruct k; discriminate.
Qed.

(** The loop invariant of [np.argmax]: [max_ind] is the first maximum
    of the entries already seen. *)
Lemma argmax_loop_first_maximum (rest : list Q) :
  forall (seen : list Q) (mp : Q) (max_ind : nat),
    nth_error seen max_ind = Some mp ->
    (forall j sj, nth_error seen j = Some sj -> (sj <= mp)%Q) ->
    (forall j sj, j < max_ind -> nth_error seen j = Some sj -> (sj < mp)%Q) ->
    first_maximum (seen ++ rest) (argmax_loop mp max_ind (List.length seen) rest).
Proof.
  induction rest as [|x rest IH]; intros seen mp max_ind Hmp Hle Hlt.
  - rewrite app_nil_r. exists mp. auto.
  - assert (Hin : max_ind < List.length seen)
      by (apply nth_error_Some; congruence).
    replace (seen ++ x :: rest)%list with ((seen ++ [x]) ++ rest)%list
      by (rewrite <- app_assoc; reflexivity).
    simpl. destruct (Qgt_bool x mp) eqn:E.
    + apply Qgt_bool_true in E.
      replace (S (List.length seen)) with (List.length (seen ++ [x]))
        by (rewrite length_app; simpl; lia).
      apply IH.
      * rewrite nth_error_app2, Nat.sub_diag by lia. reflexivity.
      * intros j sj Hj. apply nth_error_snoc in Hj as [[_ Hj]|[_ ->]].
        -- apply Qlt_le_weak. eapply Qle_lt_trans; [eapply Hle; eassumption|assumption].
        -- apply Qle_refl.
      * intros j sj Hlen Hj. apply nth_error_snoc in Hj as [[_ Hj]|[-> _]]; [|lia].
        eapply Qle_lt_trans; [eapply Hle; eassumption|assumption].
    + apply Qgt_bool_false in E.
      replace (S (List.length seen)) with (List.length (seen ++ [x]))
        by (rewrite length_app; simpl; lia).
      apply IH.
      * rewrite nth_error_app1 by assumption. assumption.
      * intros j sj Hj. apply nth_error_snoc in Hj as [[_ Hj]|[_ ->]].
        -- eapply Hle; eassumption.
        -- assumption.
      * intros j sj Hlen Hj. apply nth_error_snoc in Hj as [[_ Hj]|[-> _]]; [|lia].
        eapply Hlt; eassumption.
Qed.

Lemma np_argmax_first_maximum (sims : list Q) :
  sims <> [] ->
  exists i, np_argmax sims = Return i /\ first_maximum sims i.
Proof.
  destruct sims as [|x rest]; [congruence|]. intros _.
  exists (argmax_loop x 0 1 rest). split; [reflexivity|].
  apply (argmax_loop_first_maximum rest [x] x 0).
  - reflexivity.
  - intros [|[|j]] sj Hj; simpl in Hj; try discriminate.
    injection Hj as <-. apply Qle_refl.
  - intros j sj Hj. lia.
Qed.

Lemma cosine_similarity_nonempty {V} (cos : V -> V -> Q) (x : V) (ys : list V) :
  ys <> [] -> cosine_similarity cos x ys = Return (map (cos x) ys).
Proof. destruct ys; [congruence|reflexivity]. Qed.

Lemma getitem_nth_error {A} (l : list A) (i : nat) (a : A) :
  nth_error l i = Some a -> getitem l i = Return a.
Proof. unfold getitem. now intros ->. Qed.

Lemma nth_error_same_length {A B} (l : list A) (l' : list B) (i : nat) (a : A) :
  List.length l' = List.length l ->
  nth_error l i = Some a -> exists b, nth_error l' i = Some b.
Proof.
  intros Hlen Hi.
  assert (i < List.length l') by (rewrite Hlen; apply nth_error_Some; congruence).
  destruct (nth_error l' i) as [b|] eqn:E; [eauto|].
  apply nth_error_None in E. lia.
Qed.

End ArgmaxFacts.

Example demo_match :
  keyword_checker (demo_process (Return ["Makeup"; "Skincare"; "Haircare"])) (ask " lip tint ")
  = (Matched
       (mkMatch "lip tint" "Skincare" 0 "retinol" (- (1)) "Peaking" (31 # 10) (12 # 1000)
          "3.1 mentions per month (past 3 months)" "Popularity score: 0.012"
          "This keyword has reached its peak popularity and is widely discussed."
          "AI analysis temporarily unavailable"
          [ "Manual trend analysis required"; "Data shows current engagement patterns" ]
          [ "Monitor velocity changes"; "Track engagement trends" ]),
     200).
Proof. vm_compute. reflexivity. Qed.

(** The two globals that [load_categories] returns are parallel. *)
Lemma load_categories_parallel {V} (encode : string -> V)
      (category_column : result (list string)) :
  List.length (fst (load_categories encode category_column))
  = List.length (snd (load_categories encode category_column)).
Proof.
  destruct category_column as [categories|e]; simpl; [|reflexivity].
  now rewrite length_map.
Qed.

Lemma truthy_nonempty (s : string) : s <> "" -> truthy s = true.
Proof. destruct s; [congruence|reflexivity]. Qed.

(** C3. On a non-empty index the category stage returns the category at
    the first position of a largest cosine similarity, with that
    similarity; the keyword stage does the same over the rows of the
    table. Among equal similarities the lowest position is taken. *)
Theorem nearest_is_first_maximum (p : Process) (u : vec p) :
  (category_embeddings p <> [] ->
   List.length (categories_list p) = List.length (category_embeddings p) ->
   exists i cat e,
     nth_error (categories_list p) i = Some cat
     /\ nth_error (category_embeddings p) i = Some e
     /\ nearest_category p u = Return (cat, cosine p u e)
     /\ first_maximum (map (cosine p u) (category_embeddings p)) i)
  /\
  (forall keyword_df : list KeywordTrendRecord,
      keyword_df <> [] ->
      exists i row,
        nth_error keyword_df i = Some row
        /\ closest_keyword p u keyword_df
           = Return (keyword row, cosine p u (model_encode p (keyword row)), row)
        /\ first_maximum
             (map (fun r => cosine p u (model_encode p (keyword r))) keyword_df) i).
Proof.
  split.
  - intros Hne Hlen. unfold nearest_category.
    rewrite cosine_similarity_nonempty by assumption. cbn [bind].
    destruct (np_argmax_first_maximum (map (cosine p u) (category_embeddings p)))
      as [i [Hi Hmax]].
    { destruct (category_embeddings p); [congruence|discriminate]. }
    rewrite Hi. cbn [bind].
    pose proof Hmax as [s [Hs _]].
    rewrite nth_error_map in Hs.
    destruct (nth_error (category_embeddings p) i) as [e|] eqn:He; [|discriminate].
    injection Hs as <-.
    destruct (nth_error_same_length _ (categories_list p) i e Hlen He) as [cat Hcat].
    exists i, cat, e. repeat split; try assumption.
    rewrite (getitem_nth_error _ _ _ Hcat). cbn [bind].
    rewrite (getitem_nth_error (map (cosine p u) (category_embeddings p)) i (cosine p u e))
      by (rewrite nth_error_map, He; reflexivity).
    reflexivity.
  - intros keyword_df Hne. unfold closest_keyword.
    rewrite cosine_similarity_nonempty
      by (destruct keyword_df; [congruence|discriminate]).
    cbn [bind]. rewrite !map_map.
    destruct (np_argmax_first_maximum
                (map (fun r => cosine p u (model_encode p (keyword r))) keyword_df))
      as [i [Hi Hmax]].
    { destruct keyword_df; [congruence|discriminate]. }
    rewrite Hi. cbn [bind].
    pose proof Hmax as [s [Hs _]].
    rewrite nth_error_map in Hs.
    destruct (nth_error keyword_df i) as [row|] eqn:Hrow; [|discriminate].
    injection Hs as <-.
    exists i, row. repeat split; try assumption.
    rewrite (getitem_nth_error (map keyword keyword_df) i (keyword row))
      by (rewrite nth_error_map, Hrow; reflexivity).
    cbn [bind].
    rewrite (getitem_nth_error _ i (cosine p u (model_encode p (keyword row))))
      by (rewrite nth_error_map, Hrow; reflexivity).
    cbn [bind]. rewrite (getitem_nth_error _ _ _ Hrow). reflexivity.
Qed.

(** "Skincare" and "Haircare" are equally near to an eight-letter query;
    the first of the two is returned. *)
Lemma nearest_is_first_maximum_witness :
  exists i cat e,
    nth_error ["Makeup"; "Skincare"; "Haircare"] i = Some cat
    /\ nth_error [6%Z; 8%Z; 8%Z] i = Some e
    /\ nearest_category (demo_process (Return ["Makeup"; "Skincare"; "Haircare"])) 8%Z
       = Return (cat, inject_Z (- Z.abs (8 - e)))
    /\ first_maximum
         (map (fun v => inject_Z (- Z.abs (8 - v))) [6%Z; 8%Z; 8%Z]) i.
Proof.
  apply (proj1 (nearest_is_first_maximum
                  (demo_process (Return ["Makeup"; "Skincare"; "Haircare"])) 8%Z)).
  - vm_compute. discriminate.
  - vm_compute. reflexivity.
Defined.

Example demo_tie :
  nearest_category (demo_process (Return ["Makeup"; "Skincare"; "Haircare"])) 8%Z
  = Return ("Skincare", 0%Q).
Proof. vm_compute. reflexivity. Qed.

(** C2, as stated, fails: with an empty index a query is answered by the
    catch-all handler, a generic internal error. *)
Lemma empty_index_counterexample :
  generic_internal_error (keyword_checker (demo_process (Raise IOError)) (ask "serum"))
  = true
  /\ keyword_checker (demo_process (Raise IOError)) (ask "serum")
     = (Error "Internal server error: Expected 2D array, got 1D array instead", 500).
Proof. vm_compute. split; reflexivity. Qed.

(** C2, amended. A category file that is missing or empty leaves the
    index empty, and on an empty index every query with a keyword that is
    not blank is answered with status 500 and the text "Internal server
    error: " followed by the text of the exception the similarity call
    raised; the endpoint returns, it does not raise. *)
Theorem empty_index_internal_error :
  (forall (V : Type) (encode : string -> V) (cos : V -> V -> Q) text exists_ read service
          (category_column : result (list string)),
      (category_column = Return [] \/ exists e, category_column = Raise e) ->
      category_embeddings
        (started V encode cos text exists_ read service category_column) = []
      /\ categories_list
           (started V encode cos text exists_ read service category_column) = [])
  /\
  (forall (p : Process) (d : list (string * json)) (kw : string),
      category_embeddings p = [] ->
      member "keyword" d = Some (JString kw) ->
      strip kw <> "" ->
      keyword_checker p (Body (JObject d))
      = (Error ("Internal server error: " ++ exn_str p ValueError), 500)
      /\ generic_internal_error (keyword_checker p (Body (JObject d))) = true).
Proof.
  split.
  - intros V encode cos text exists_ read service column [-> | [e ->]];
      split; reflexivity.
  - intros p d kw Hempty Hkw Hstrip.
    assert (E : keyword_checker p (Body (JObject d))
                = (Error ("Internal server error: " ++ exn_str p ValueError), 500)).
    { unfold keyword_checker, keyword_checker_try.
      destruct d as [|m d']; [discriminate|].
      cbn [get_json bind json_truth negb json_contains json_item].
  rewrite Hkw. cbn [negb bind strip_value].
      rewrite (truthy_nonempty _ Hstrip). cbn [negb].
      unfold nearest_category. rewrite Hempty. reflexivity. }
    split; [exact E|]. rewrite E. reflexivity.
Qed.

Lemma empty_index_internal_error_witness :
  keyword_checker (demo_process (Raise IOError)) (ask "dewy glow serum")
  = (Error ("Internal server error: " ++ demo_text ValueError), 500)
  /\ generic_internal_error
       (keyword_checker (demo_process (Raise IOError)) (ask "dewy glow serum")) = true.
Proof.
  apply (proj2 empty_index_internal_error (demo_process (Raise IOError))
               [("keyword", JString "dewy glow serum")] "dewy glow serum").
  - exact (proj1 (proj1 empty_index_internal_error Z _ _ _ _ _ _ (Raise IOError)
                        (or_intror (ex_intro _ IOError eq_refl)))).
  - reflexivity.
  - vm_compute. discriminate.
Defined.

(** C7, as stated, fails: a dataset file that exists with 0 bytes has
    no row, yet reading it raises before the emptiness test and the
    answer is the catch-all one, status 500 and no category. *)
Lemma zero_byte_dataset_counterexample :
  os_path_exists empty_file_process (dataset_file "Skincare") = true
  /\ nearest_category empty_file_process
       (model_encode empty_file_process "lip tint") = Return ("Skincare", 0%Q)
  /\ keyword_checker empty_file_process (ask "lip tint")
     = (Error "Internal server error: No columns to parse from file", 500)
  /\ ~ (exists msg cat sim,
          keyword_checker empty_file_process (ask "lip tint")
          = (CategoryError msg cat sim, 404)).
Proof.
  split; [reflexivity|]. split; [reflexivity|].
  assert (E : keyword_checker empty_file_process (ask "lip tint")
              = (Error "Internal server error: No columns to parse from file", 500))
    by (vm_compute; reflexivity).
  split; [exact E|]. intros [msg [cat [sim H]]]. rewrite E in H. discriminate H.
Qed.

(** C7, amended. Once a category is matched, a dataset file that does
    not exist, or that exists and is read as a table with no row, is
    answered with status 404 and a body that carries the matched category
    and its similarity. *)
Theorem dataset_gap_keeps_category
        (p : Process) (d : list (string * json)) (kw cat : string) (sim : Q) :
  member "keyword" d = Some (JString kw) ->
  strip kw <> "" ->
  nearest_category p (model_encode p (strip kw)) = Return (cat, sim) ->
  (os_path_exists p (dataset_file cat) = false ->
   keyword_checker p (Body (JObject d))
   = (CategoryError ("Data file not found for category: " ++ cat) cat sim, 404))
  /\
  (os_path_exists p (dataset_file cat) = true ->
   pd_read_csv p (dataset_file cat) = Return [] ->
   keyword_checker p (Body (JObject d))
   = (CategoryError ("No keyword data found for category: " ++ cat) cat sim, 404)).
Proof.
  intros Hkw Hstrip Hnear.
  unfold keyword_checker, keyword_checker_try, dataset_file.
  destruct d as [|m d']; [discriminate|].
  cbn [get_json bind json_truth negb json_contains json_item].
  rewrite Hkw. cbn [negb bind strip_value].
  rewrite (truthy_nonempty _ Hstrip). cbn [negb].
  rewrite Hnear. cbn [bind].
  split.
  - intros ->. reflexivity.
  - intros -> ->. reflexivity.
Qed.

Lemma dataset_gap_keeps_category_witness :
  keyword_checker (demo_process (Return ["Makeup"; "Fragrance"])) (ask "lipsticks")
  = (CategoryError "Data file not found for category: Fragrance" "Fragrance" 0, 404)
  /\ keyword_checker (demo_process (Return ["Haircare"; "Makeup"])) (ask "lip tint")
     = (CategoryError "No keyword data found for category: Haircare" "Haircare" 0, 404).
Proof.
  split.
  - apply (proj1 (dataset_gap_keeps_category
                    (demo_process (Return ["Makeup"; "Fragrance"]))
                    [("keyword", JString "lipsticks")] "lipsticks" "Fragrance" 0
                    eq_refl ltac:(vm_compute; discriminate) eq_refl)).
    reflexivity.
  - apply (proj2 (dataset_gap_keeps_category
                    (demo_process (Return ["Haircare"; "Makeup"]))
                    [("keyword", JString "lip tint")] "lip tint" "Haircare" 0
                    eq_refl ltac:(vm_compute; discriminate) eq_refl));
      reflexivity.
Defined.

(** C9. A keyword that is empty once trimmed is refused with status 400
    and the text "Keyword cannot be empty"; this holds for the empty
    string and for a string of blanks. *)
Theorem blank_keyword_rejected (p : Process) (d : list (string * json)) (kw : string) :
  member "keyword" d = Some (JString kw) ->
  strip kw = "" ->
  keyword_checker p (Body (JObject d)) = (Error "Keyword cannot be empty", 400).
Proof.
  intros Hkw Hstrip.
  unfold keyword_checker, keyword_checker_try.
  destruct d as [|m d']; [discriminate|].
  cbn [get_json bind json_truth negb json_contains json_item].
  rewrite Hkw. cbn [negb bind strip_value]. rewrite Hstrip. reflexivity.
Qed.

Lemma blank_keyword_rejected_witness :
  keyword_checker (demo_process (Return ["Makeup"; "Skincare"])) (ask "")
  = (Error "Keyword cannot be empty", 400)
  /\ keyword_checker (demo_process (Return ["Makeup"; "Skincare"])) (ask "   ")
     = (Error "Keyword cannot be empty", 400).
Proof.
  split.
  - apply (blank_keyword_rejected _ [("keyword", JString "")] ""); reflexivity.
  - apply (blank_keyword_rejected _ [("keyword", JString "   ")] "   "); reflexivity.
Defined.

(** ** The reporting endpoints *)

Section FormatFacts.

Lemma digit_not_plus (k : Z) :
  (0 <= k < 10)%Z -> Ascii.eqb "+"%char (digit k) = false.
Proof.
  intros H.
  assert (C : (k = 0 \/ k = 1 \/ k = 2 \/ k = 3 \/ k = 4 \/ k = 5
               \/ k = 6 \/ k = 7 \/ k = 8 \/ k = 9)%Z) by lia.
  repeat (destruct C as [-> | C]; [reflexivity|]). subst k. reflexivity.
Qed.

(** A numeral starts with a digit. *)
Lemma numeral_fuel_head (fuel : nat) :
  forall (n : Z) (acc : string),
  exists k rest,
    (0 <= k < 10)%Z /\ numeral_fuel (S fuel) n acc = String (digit k) rest.
Proof.
  induction fuel as [|f IH]; intros n acc.
  - exists (n mod 10)%Z, acc. split; [apply Z.mod_pos_bound; lia|].
    simpl. destruct (n <? 10)%Z; reflexivity.
  - change (numeral_fuel (S (S f)) n acc)
      with (if (n <? 10)%Z then String (digit (n mod 10)%Z) acc
            else numeral_fuel (S f) (n / 10)%Z (String (digit (n mod 10)%Z) acc)).
    destruct (n <? 10)%Z.
    + exists (n mod 10)%Z, acc. split; [apply Z.mod_pos_bound; lia|reflexivity].
    + apply IH.
Qed.

Lemma format_unsigned_head (d : nat) (x : Q) :
  exists k rest, (0 <= k < 10)%Z /\ format_unsigned d x = String (digit k) rest.
Proof.
  unfold format_unsigned, numeral.
  set (whole := (_ / _)%Z).
  destruct (numeral_fuel_head (Z.to_nat (Z.log2 whole)) whole "")
    as [k [rest [Hk E]]].
  rewrite E. destruct d; [exists k, rest; auto|].
  eexists k, _. split; [assumption|reflexivity].
Qed.

(** The number itself is never printed with a plus sign. *)
Lemma format_f_no_plus (d : nat) (x : Q) (suffix : string) :
  startswith "+" (format_f d x ++ suffix) = false.
Proof.
  unfold format_f. destruct (Qneg x); [reflexivity|].
  destruct (format_unsigned_head d x) as [k [rest [Hk ->]]].
  change (String (digit k) rest ++ suffix) with (String (digit k) (rest ++ suffix)).
  cbn [startswith]. rewrite (digit_not_plus k Hk). reflexivity.
Qed.

Lemma format_f_negative (d : nat) (x : Q) :
  (x < 0)%Q -> format_f d x = "-" ++ format_unsigned d (- x)%Q.
Proof.
  intros H. unfold format_f, Qneg.
  pose proof (proj1 (Qlt_alt x 0) H) as E. now rewrite E.
Qed.

Lemma signed_percent_plus (x : Q) :
  startswith "+" (signed_percent x) = Qle_bool 0 x.
Proof.
  unfold signed_percent. destruct (Qle_bool 0 x); [reflexivity|].
  apply format_f_no_plus.
Qed.

Lemma breakdown_growth_plus (x : Q) :
  startswith "+" (breakdown_growth x) = Qgt_bool x 0.
Proof.
  unfold breakdown_growth. destruct (Qgt_bool x 0); [reflexivity|].
  apply format_f_no_plus.
Qed.

End FormatFacts.

Section SortingFacts.

Context {A : Type} (key : A -> Q).

Lemma insert_desc_in (x y : A) (l : list A) :
  In y (insert_desc key x l) <-> y = x \/ In y l.
Proof.
  induction l as [|z r IH]; simpl.
  - intuition congruence.
  - destruct (Qle_bool (key z) (key x)); simpl; [intuition congruence|].
    rewrite IH. intuition congruence.
Qed.

(** Sorting keeps the entries. *)
Lemma sorted_desc_in (y : A) (l : list A) :
  In y (sorted_desc key l) <-> In y l.
Proof.
  induction l as [|x r IH]; simpl; [reflexivity|].
  rewrite insert_desc_in, IH. intuition congruence.
Qed.

End SortingFacts.

Section ReportFacts.

Lemma rerank_in (l : list Analysis) :
  forall (i : nat) (a : Analysis),
    In a (rerank i l) ->
    exists a0, In a0 l /\ change a = change a0 /\ avg_growth a = avg_growth a0
               /\ an_keywords a = an_keywords a0.
Proof.
  induction l as [|x r IH]; intros i a; simpl; [tauto|].
  intros [<- | H].
  - exists x. simpl. auto.
  - destruct (IH _ _ H) as [a0 [Hin Heq]]. exists a0. auto.
Qed.

Lemma analysis_rows_in (keyword_trends : list CategoryTrends) :
  forall (i : nat) (a : Analysis),
    In a (analysis_rows i keyword_trends) ->
    exists j c,
      In c keyword_trends
      /\ a = analysis_row j (keywords_of c) (get (ct_category c) "").
Proof.
  induction keyword_trends as [|c rest IH]; intros i a; simpl; [tauto|].
  destruct (keywords_of c) as [|kw kws] eqn:E.
  - intros H. destruct (IH _ _ H) as [j [c' [Hin Ha]]]. exists j, c'. auto.
  - intros [<- | H].
    + exists i, c. rewrite E. auto.
    + destruct (IH _ _ H) as [j [c' [Hin Ha]]]. exists j, c'. auto.
Qed.

Lemma top_growth_nonnegative (l : list KeywordInfo) :
  forall top : Q * string,
    (0 <= fst top)%Q ->
    (0 <= fst (fold_left
                 (fun (top : Q * string) kw =>
                    if Qgt_bool (growth_rate_of kw) (fst top)
                    then (growth_rate_of kw, get (kw_keyword kw) "N/A")
                    else top) l top))%Q.
Proof.
  induction l as [|kw r IH]; intros top H; simpl; [assumption|].
  apply IH. destruct (Qgt_bool (growth_rate_of kw) (fst top)) eqn:E; [|assumption].
  simpl. apply Qgt_bool_true in E. apply Qlt_le_weak.
  eapply Qle_lt_trans; eassumption.
Qed.

End ReportFacts.

(** C8, as stated, fails: a category whose growth rate is zero, a value
    that is not negative, is printed by [get_category_breakdown] without
    the plus sign. *)
Lemma zero_growth_counterexample :
  map (category_growth flat_trends) flat_rows = [ (0 # 2)%Q ]
  /\ map bd_growth (get_category_breakdown flat_trends flat_rows) = [ "0.0%" ]
  /\ map change (get_trend_analysis flat_trends) = [ "+0.0%" ].
Proof. vm_compute. repeat split; reflexivity. Qed.

Lemma firstn_keeps_members {A} (n : nat) :
  forall (l : list A) (x : A), In x (firstn n l) -> In x l.
Proof.
  induction n as [|n IH]; intros [|y l] x; simpl; try tauto.
  intros [-> | H]; [now left | right; now apply IH].
Qed.

Example mixed_analysis :
  map (fun a => (an_category a, change a, rank a, map tk_growth (an_keywords a)))
      (get_trend_analysis mixed_trends)
  = [ ("Skincare", "+4.8%", 1, ["+12.5%"; "-3.0%"]);
      ("Makeup", "-2.5%", 2, ["+0.0%"; "-5.0%"]) ].
Proof. vm_compute. reflexivity. Qed.

Example mixed_breakdown :
  map (fun b => (bd_name b, bd_percentage b, bd_growth b, bd_trend b))
      (get_category_breakdown mixed_trends mixed_rows)
  = [ ("Skincare", 45%Z, "+4.8%", "up"); ("Makeup", 30%Z, "-2.5%", "down") ].
Proof. vm_compute. reflexivity. Qed.

(** C8, amended. [get_trend_analysis] prints the average growth of a
    category and the growth of each listed keyword with a leading plus
    sign exactly when the value is zero or more; [get_category_breakdown]
    prints the plus sign exactly when the growth rate is above zero, the
    same test that sets its trend to "up", so that zero is printed bare;
    [get_metrics] prints its top growth rate, which is never negative,
    with no plus sign.  A negative value is always printed with its minus
    sign only. *)
Theorem growth_sign_by_endpoint
        (keyword_trends : list CategoryTrends) (category_data : list CategoryRow) :
  (forall a : Analysis,
      In a (get_trend_analysis keyword_trends) ->
      change a
      = (if Qle_bool 0 (avg_growth a) then "+" else "")
          ++ format_f 1 (avg_growth a) ++ "%"
      /\ startswith "+" (change a) = Qle_bool 0 (avg_growth a)
      /\ forall k : TopKeyword,
          In k (an_keywords a) ->
          exists c kw,
            In c keyword_trends /\ In kw (keywords_of c)
            /\ tk_growth k
               = (if Qle_bool 0 (growth_rate_of kw) then "+" else "")
                   ++ format_f 1 (growth_rate_of kw) ++ "%"
            /\ startswith "+" (tk_growth k) = Qle_bool 0 (growth_rate_of kw))
  /\
  (forall b : Breakdown,
      In b (get_category_breakdown keyword_trends category_data) ->
      exists row,
        In row category_data
        /\ bd_growth b
           = (if Qgt_bool (category_growth keyword_trends row) 0 then "+" else "")
               ++ format_f 1 (category_growth keyword_trends row) ++ "%"
        /\ startswith "+" (bd_growth b)
           = Qgt_bool (category_growth keyword_trends row) 0
        /\ bd_trend b
           = if Qgt_bool (category_growth keyword_trends row) 0 then "up" else "down")
  /\
  ((0 <= fst (top_growth_of keyword_trends))%Q
   /\ top_growth_rate (get_metrics keyword_trends)
      = format_f 1 (fst (top_growth_of keyword_trends)) ++ "%"
   /\ startswith "+" (top_growth_rate (get_metrics keyword_trends)) = false)
  /\
  (forall (d : nat) (x : Q),
      (x < 0)%Q -> format_f d x = "-" ++ format_unsigned d (- x)%Q).
Proof.
  repeat apply conj.
  - intros a Ha. unfold get_trend_analysis in Ha.
    apply rerank_in in Ha as [a0 [Hin [Hc [Hg Hk]]]].
    apply sorted_desc_in in Hin.
    apply analysis_rows_in in Hin as [j [c [Hc_in ->]]].
    rewrite Hc, Hg, Hk. cbn [change avg_growth an_keywords analysis_row].
    split; [|split].
    + unfold signed_percent. destruct (Qle_bool 0 (mean_growth (keywords_of c))); reflexivity.
    + apply signed_percent_plus.
    + intros k Hin. apply in_map_iff in Hin as [kw [<- Hkw]].
      apply firstn_keeps_members, sorted_desc_in in Hkw.
      exists c, kw. repeat split; try assumption.
      * cbn [tk_growth top_keyword_row]. unfold signed_percent.
        destruct (Qle_bool 0 (growth_rate_of kw)); reflexivity.
      * apply signed_percent_plus.
  - intros b Hb. unfold get_category_breakdown in Hb.
    apply sorted_desc_in, in_map_iff in Hb as [row [<- Hrow]].
    exists row. split; [assumption|].
    cbn [bd_growth bd_trend breakdown_entry]. split; [|split].
    + unfold breakdown_growth.
      destruct (Qgt_bool (category_growth keyword_trends row) 0); reflexivity.
    + apply breakdown_growth_plus.
    + reflexivity.
  - unfold top_growth_of. apply top_growth_nonnegative. apply Qle_refl.
  - unfold get_metrics. destruct (top_growth_of keyword_trends); reflexivity.
  - unfold get_metrics. destruct (top_growth_of keyword_trends) as [top kw].
    cbn [top_growth_rate]. apply format_f_no_plus.
  - intros d x. apply format_f_negative.
Qed.

Lemma growth_sign_by_endpoint_witness :
  exists (a : Analysis) (b : Breakdown),
    (In a (get_trend_analysis mixed_trends)
     /\ an_category a = "Makeup"
     /\ startswith "+" (change a) = Qle_bool 0 (avg_growth a))
    /\ (In b (get_category_breakdown mixed_trends mixed_rows)
        /\ exists row,
            In row mixed_rows
            /\ startswith "+" (bd_growth b)
               = Qgt_bool (category_growth mixed_trends row) 0).
Proof.
  destruct (get_trend_analysis mixed_trends) as [|a1 [|a2 la]] eqn:Ea;
    try discriminate Ea.
  destruct (get_category_breakdown mixed_trends mixed_rows) as [|b1 lb] eqn:Eb;
    try discriminate Eb.
  exists a2, b1.
  assert (Ha : In a2 (get_trend_analysis mixed_trends))
    by (rewrite Ea; right; left; reflexivity).
  assert (Hb : In b1 (get_category_breakdown mixed_trends mixed_rows))
    by (rewrite Eb; left; reflexivity).
  destruct (growth_sign_by_endpoint mixed_trends mixed_rows) as [HA [HB _]].
  split.
  - split; [right; left; reflexivity|].
    split; [injection Ea as _ <- _; reflexivity|].
    exact (proj1 (proj2 (HA a2 Ha))).
  - split; [left; reflexivity|].
    destruct (HB b1 Hb) as [row [Hrow [_ [Hplus _]]]]. exists row. auto.
Defined.

(* ================================================================== *)
(** * Further properties *)

(** ** String methods *)

Section StripFacts.

Lemma rstrip_keeps_head (c : ascii) (r : string) :
  isspace c = false -> rstrip (String c r) = String c (rstrip r).
Proof.
  intros Hc. cbn [rstrip]. destruct (rstrip r); [now rewrite Hc|reflexivity].
Qed.

Lemma rstrip_idempotent (s : string) : rstrip (rstrip s) = rstrip s.
Proof.
  induction s as [|c r IH]; [reflexivity|].
  cbn [rstrip]. destruct (rstrip r) as [|a r'] eqn:E.
  - destruct (isspace c) eqn:Hc; [reflexivity|].
    cbn [rstrip]. now rewrite Hc.
  - change (rstrip (String c (String a r')))
      with (match rstrip (String a r') with
            | EmptyString => if isspace c then EmptyString else String c EmptyString
            | r'' => String c r''
            end).
    now rewrite IH.
Qed.

Lemma lstrip_head (s : string) :
  lstrip s = "" \/ exists c r, lstrip s = String c r /\ isspace c = false.
Proof.
  induction s as [|c r IH]; [now left|].
  cbn [lstrip]. destruct (isspace c) eqn:Hc; [exact IH|].
  right. exists c, r. auto.
Qed.

Lemma strip_idempotent (s : string) : strip (strip s) = strip s.
Proof.
  unfold strip. destruct (lstrip_head s) as [-> | [c [r [-> Hc]]]]; [reflexivity|].
  rewrite (rstrip_keeps_head c r Hc).
  cbn [lstrip]. rewrite Hc.
  rewrite (rstrip_keeps_head c _ Hc). now rewrite rstrip_idempotent.
Qed.

Lemma startswith_self_append (sub post : string) : startswith sub (sub ++ post) = true.
Proof.
  induction sub as [|c r IH]; [reflexivity|].
  cbn [append startswith]. now rewrite Ascii.eqb_refl, IH.
Qed.

Lemma contains_after_prefix (sub pre s : string) :
  contains sub s = true -> contains sub (pre ++ s) = true.
Proof.
  intros H. induction pre as [|c r IH]; [exact H|].
  change (String c r ++ s) with (String c (r ++ s)).
  cbn [contains]. rewrite IH. apply orb_true_r.
Qed.

Lemma contains_middle (sub pre post : string) :
  contains sub (pre ++ sub ++ post) = true.
Proof.
  apply contains_after_prefix.
  destruct (sub ++ post) as [|c r] eqn:E.
  - destruct sub; [reflexivity|discriminate].
  - cbn [contains]. rewrite <- E, startswith_self_append. reflexivity.
Qed.

End StripFacts.

(** ** The parser, further *)

Section CleaningFacts.

(** After a matched pair the second asterisk is the one skipped. *)
Lemma double_star_pass (s : string) :
  without_stars (replace_from "**" "" 0 s) = without_stars s
  /\ (startswith "*" s = true ->
      without_stars (replace_from "**" "" 1 s) = without_stars s).
Proof.
  induction s as [|c r [IH0 IH1]]; [split; [reflexivity|discriminate]|].
  split.
  - cbn [replace_from].
    destruct (startswith "**" (String c r)) eqn:E.
    + cbn [startswith] in E. apply andb_prop in E as [Hc Hr].
      change (String.length "**" - 1) with 1.
      change ("" ++ replace_from "**" "" 1 r) with (replace_from "**" "" 1 r).
      rewrite IH1 by exact Hr.
      cbn [without_stars]. apply Ascii.eqb_eq in Hc. subst c. reflexivity.
    + cbn [without_stars]. now rewrite IH0.
  - intros H. cbn [replace_from]. rewrite IH0.
    cbn [startswith] in H. apply andb_prop in H as [Hc _].
    apply Ascii.eqb_eq in Hc. subst c. reflexivity.
Qed.

Lemma single_star_pass (s : string) :
  replace_from "*" "" 0 s = without_stars s.
Proof.
  induction s as [|c r IH]; [reflexivity|].
  cbn [replace_from startswith without_stars].
  rewrite (Ascii.eqb_sym c "*"%char).
  destruct (Ascii.eqb "*"%char c); cbn [andb].
  - change (String.length "*" - 1) with 0. exact IH.
  - now rewrite IH.
Qed.

Lemma without_stars_idempotent (s : string) :
  without_stars (without_stars s) = without_stars s.
Proof.
  induction s as [|c r IH]; [reflexivity|].
  cbn [without_stars]. destruct (Ascii.eqb c "*"%char) eqn:E; [exact IH|].
  cbn [without_stars]. now rewrite E, IH.
Qed.

End CleaningFacts.

(** X1. The cleaning step removes every asterisk of the response, paired
    or single, and changes nothing else. *)
Theorem clean_text_removes_asterisks (response_text : string) :
  clean_text response_text = without_stars response_text
  /\ contains "*" (clean_text response_text) = false.
Proof.
  assert (E : clean_text response_text = without_stars response_text).
  { unfold clean_text, replace. rewrite single_star_pass.
    apply (proj1 (double_star_pass response_text)). }
  split; [exact E|]. rewrite E. clear E.
  induction response_text as [|c r IH]; [reflexivity|].
  cbn [without_stars]. destruct (Ascii.eqb c "*"%char) eqn:Hc; [exact IH|].
  cbn [contains startswith]. rewrite Ascii.eqb_sym, Hc. exact IH.
Qed.

Section GateFacts.

(** What holds of the locals of the loop on trimmed lines. *)
Let kept (st : NarrativeSections) : Prop :=
  strip (ns_future_trend st) = ns_future_trend st
  /\ Forall longer_than_10 (ns_insights st)
  /\ Forall longer_than_10 (ns_recommendations st).

Lemma lines_of_trimmed (text line : string) :
  In line (lines_of text) -> strip line = line /\ line <> "".
Proof.
  unfold lines_of. intros H. apply in_map_iff in H as [x [<- Hx]].
  apply filter_In in Hx as [_ Hx]. split; [apply strip_idempotent|].
  intros E. rewrite E in Hx. discriminate.
Qed.

Lemma step_keeps (st : NarrativeSections) (line : string) :
  strip line = line -> kept st -> kept (step st line).
Proof.
  intros Hl [Ht [Hi Hr]]. unfold step, kept.
  destruct (section_tag line); [repeat split; assumption|].
  destruct (current_section st) as [[| |]|]; [| | |repeat split; assumption].
  - destruct (negb (truthy (ns_future_trend st))); [|repeat split; assumption].
    destruct ((15 <? String.length line)%nat && negb (startswith "-" line));
      [|repeat split; assumption].
    cbn [ns_future_trend ns_insights ns_recommendations].
    repeat split; try assumption. apply strip_idempotent.
  - destruct (startswith "-" line).
    + destruct (truthy (strip (tail line))
                && (10 <? String.length (strip (tail line)))%nat) eqn:E;
        [|repeat split; assumption].
      apply andb_prop in E as [_ E]. apply Nat.ltb_lt in E.
      cbn [ns_future_trend ns_insights ns_recommendations].
      repeat split; try assumption.
      apply Forall_app. split; [assumption|]. constructor; [exact E|constructor].
    + destruct ((15 <? String.length line)%nat
                && (List.length (ns_insights st) <? 3)%nat
                && negb (names_a_section (lower line))) eqn:E;
        [|repeat split; assumption].
      apply andb_prop in E as [E _]. apply andb_prop in E as [E _].
      apply Nat.ltb_lt in E.
      cbn [ns_future_trend ns_insights ns_recommendations].
      repeat split; try assumption.
      apply Forall_app. split; [assumption|].
      constructor; [|constructor]. rewrite Hl. unfold longer_than_10. lia.
  - destruct (startswith "-" line).
    + destruct (truthy (strip (tail line))
                && (10 <? String.length (strip (tail line)))%nat) eqn:E;
        [|repeat split; assumption].
      apply andb_prop in E as [_ E]. apply Nat.ltb_lt in E.
      cbn [ns_future_trend ns_insights ns_recommendations].
      repeat split; try assumption.
      apply Forall_app. split; [assumption|]. constructor; [exact E|constructor].
    + destruct ((15 <? String.length line)%nat
                && (List.length (ns_recommendations st) <? 3)%nat
                && negb (names_a_section (lower line))) eqn:E;
        [|repeat split; assumption].
      apply andb_prop in E as [E _]. apply andb_prop in E as [E _].
      apply Nat.ltb_lt in E.
      cbn [ns_future_trend ns_insights ns_recommendations].
      repeat split; try assumption.
      apply Forall_app. split; [assumption|].
      constructor; [|constructor]. rewrite Hl. unfold longer_than_10. lia.
Qed.

Lemma scan_keeps (lines : list string) :
  forall st,
    (forall line, In line lines -> strip line = line) ->
    kept st -> kept (fold_left step lines st).
Proof.
  induction lines as [|l ls IH]; intros st Hall Hst; [exact Hst|].
  cbn [fold_left]. apply IH.
  - intros line Hin. apply Hall. now right.
  - apply step_keeps; [apply Hall; now left|exact Hst].
Qed.

Lemma captured_kept (text : string) :
  strip (ns_future_trend (captured text)) = ns_future_trend (captured text)
  /\ Forall longer_than_10 (ns_insights (captured text))
  /\ Forall longer_than_10 (ns_recommendations (captured text)).
Proof.
  apply (scan_keeps (lines_of text) start).
  - intros line Hin. apply (lines_of_trimmed text line Hin).
  - repeat split; constructor.
Qed.

Lemma canned_trend_trimmed (response_text : string) :
  strip (canned_trend response_text) = canned_trend response_text
  /\ canned_trend response_text <> "".
Proof.
  unfold canned_trend.
  destruct (contains "peaking" (lower response_text));
    [split; [vm_compute; reflexivity|discriminate]|].
  destruct (contains "growing" (lower response_text));
    [split; [vm_compute; reflexivity|discriminate]|].
  destruct (contains "emerging" (lower response_text));
    [split; [vm_compute; reflexivity|discriminate]|].
  destruct (contains "decaying" (lower response_text));
    split; (vm_compute; reflexivity) || discriminate.
Qed.

Lemma topped_up_count (items defaults : list string) :
  List.length defaults = 3 ->
  2 <= List.length (firstn 3 (top_up items defaults)) <= 3.
Proof.
  intros Hd. rewrite length_firstn. unfold top_up.
  destruct (Nat.ltb_spec (List.length items) 2) as [Hlt|Hge]; [|lia].
  rewrite length_app, length_firstn. lia.
Qed.

Lemma topped_up_floor (items defaults : list string) :
  Forall longer_than_10 items -> Forall longer_than_10 defaults ->
  Forall longer_than_10 (firstn 3 (top_up items defaults)).
Proof.
  intros Hi Hd. apply Forall_forall. intros x Hx.
  apply firstn_keeps_members in Hx. unfold top_up in Hx.
  destruct (List.length items <? 2)%nat.
  - apply in_app_or in Hx as [Hx|Hx].
    + eapply Forall_forall in Hi; eassumption.
    + apply firstn_keeps_members in Hx. eapply Forall_forall in Hd; eassumption.
  - eapply Forall_forall in Hi; eassumption.
Qed.


End GateFacts.

(** The gate turns any state with a trimmed trend slot into a
    well-shaped analysis. *)
Lemma gate_well_shaped (st : NarrativeSections) (response_text : string) :
  strip (ns_future_trend st) = ns_future_trend st ->
  well_shaped (quality_gate st response_text).
Proof.
  intros Ht. unfold well_shaped, quality_gate.
  cbn [future_trend insights recommendations].
  split; [|split; apply topped_up_count; reflexivity].
  destruct (negb (truthy (ns_future_trend st))
            || contains low_information (lower (ns_future_trend st))) eqn:E.
  - destruct (canned_trend_trimmed response_text) as [-> Hne]. exact Hne.
  - rewrite Ht. apply orb_false_elim in E as [E _].
    destruct (ns_future_trend st); discriminate.
Qed.

(** X2. Whatever the content, the parser returns a trend sentence that
    is not empty and two or three items in each list. *)
Theorem parse_always_well_shaped (c : content) :
  well_shaped (parse_llm_response_enhanced c).
Proof.
  destruct c as [text|].
  - unfold parse_llm_response_enhanced. apply gate_well_shaped.
    exact (proj1 (captured_kept text)).
  - vm_compute. repeat split; (discriminate || lia).
Qed.



(** X4. Every insight and every recommendation the parser returns has
    more than ten characters. *)
Theorem returned_items_are_long (c : content) :
  Forall longer_than_10 (insights (parse_llm_response_enhanced c))
  /\ Forall longer_than_10 (recommendations (parse_llm_response_enhanced c)).
Proof.
  destruct c as [text|].
  - destruct (captured_kept text) as [_ [Hi Hr]].
    unfold parse_llm_response_enhanced, quality_gate.
    cbn [insights recommendations].
    split; apply topped_up_floor; try assumption;
      repeat constructor; unfold longer_than_10; cbn; lia.
  - split; repeat constructor; unfold longer_than_10; cbn; lia.
Qed.

(** ** The narrative generator, further *)

(** X5. Whether the client is missing, raises or answers with any
    content at all, the analysis has a trend sentence that is not empty
    and two or three items in each list. *)
Theorem analysis_always_well_shaped
        (llm : option client) (keyword category phase : string)
        (velocity engagement_rate : Q) (matched_keyword : string) :
  well_shaped (analyze_keyword_with_llm llm keyword category phase velocity
                 engagement_rate matched_keyword).
Proof.
  unfold analyze_keyword_with_llm.
  destruct llm as [invoke|]; [|vm_compute; repeat split; (discriminate || lia)].
  destruct (invoke _) as [[text|]|e].
  - unfold parse_llm_response_enhanced. apply gate_well_shaped.
    exact (proj1 (captured_kept text)).
  - vm_compute. repeat split; (discriminate || lia).
  - vm_compute. repeat split; (discriminate || lia).
Qed.

(** ** The matcher, further *)

Section StageFacts.

Variable p : Process.

Lemma nearest_category_returns (u : vec p) :
  category_embeddings p <> [] ->
  List.length (categories_list p) = List.length (category_embeddings p) ->
  exists i cat e,
    nth_error (categories_list p) i = Some cat
    /\ nth_error (category_embeddings p) i = Some e
    /\ nearest_category p u = Return (cat, cosine p u e)
    /\ first_maximum (map (cosine p u) (category_embeddings p)) i.
Proof.
  intros Hne Hlen. unfold nearest_category.
  rewrite cosine_similarity_nonempty by assumption. cbn [bind].
  destruct (np_argmax_first_maximum (map (cosine p u) (category_embeddings p)))
    as [i [Hi Hmax]];
    [destruct (category_embeddings p); [congruence|discriminate]|].
  rewrite Hi. cbn [bind].
  pose proof Hmax as [s [Hs _]]. rewrite nth_error_map in Hs.
  destruct (nth_error (category_embeddings p) i) as [e|] eqn:He; [|discriminate].
  injection Hs as <-.
  destruct (nth_error_same_length _ (categories_list p) i e Hlen He) as [cat Hcat].
  exists i, cat, e. repeat split; try assumption.
  rewrite (getitem_nth_error _ _ _ Hcat). cbn [bind].
  rewrite (getitem_nth_error (map (cosine p u) (category_embeddings p)) i (cosine p u e))
    by (rewrite nth_error_map, He; reflexivity).
  reflexivity.
Qed.

Lemma closest_keyword_returns (u : vec p) (keyword_df : list KeywordTrendRecord) :
  keyword_df <> [] ->
  exists row,
    In row keyword_df
    /\ closest_keyword p u keyword_df
       = Return (keyword row, cosine p u (model_encode p (keyword row)), row)
    /\ forall other, In other keyword_df ->
                     (cosine p u (model_encode p (keyword other))
                      <= cosine p u (model_encode p (keyword row)))%Q.
Proof.
  intros Hne. unfold closest_keyword.
  rewrite cosine_similarity_nonempty
    by (destruct keyword_df; [congruence|discriminate]).
  cbn [bind]. rewrite !map_map.
  destruct (np_argmax_first_maximum
              (map (fun r => cosine p u (model_encode p (keyword r))) keyword_df))
    as [i [Hi [s [Hs [Hle _]]]]];
    [destruct keyword_df; [congruence|discriminate]|].
  rewrite Hi. cbn [bind]. rewrite nth_error_map in Hs.
  destruct (nth_error keyword_df i) as [row|] eqn:Hrow; [|discriminate].
  injection Hs as <-.
  exists row. split; [eapply nth_error_In; eassumption|]. split.
  - rewrite (getitem_nth_error (map keyword keyword_df) i (keyword row))
      by (rewrite nth_error_map, Hrow; reflexivity).
    cbn [bind].
    rewrite (getitem_nth_error _ i (cosine p u (model_encode p (keyword row))))
      by (rewrite nth_error_map, Hrow; reflexivity).
    cbn [bind]. rewrite (getitem_nth_error _ _ _ Hrow). reflexivity.
  - intros other Hin. apply In_nth_error in Hin as [j Hj].
    apply (Hle j). rewrite nth_error_map, Hj. reflexivity.
Qed.

End StageFacts.

(** X6. A body that is not JSON makes [get_json] raise inside the [try]
    and is answered by the catch-all handler with status 500.  A JSON
    body that Python takes as false ([null], [false], zero, the empty
    string, array or object) and an object without the key are refused
    with status 400 and "Keyword is required".  [true] and a number other
    than zero cannot be searched for the key, and a keyword that is not a
    string cannot be trimmed: both get status 500 from the catch-all
    handler. *)
Theorem keyword_field_validation (p : Process) :
  keyword_checker p NotJson
  = (Error ("Internal server error: " ++ exn_str p HTTPException), 500)
  /\ (forall data, json_truth data = false ->
                   keyword_checker p (Body data) = (Error "Keyword is required", 400))
  /\ (forall d, member "keyword" d = None ->
                keyword_checker p (Body (JObject d)) = (Error "Keyword is required", 400))
  /\ (forall data, json_truth data = true ->
                   (data = JBool true \/ exists x, data = JNumber x) ->
                   keyword_checker p (Body data)
                   = (Error ("Internal server error: " ++ exn_str p TypeError), 500))
  /\ (forall d v, member "keyword" d = Some v ->
                  (forall s, v <> JString s) ->
                  keyword_checker p (Body (JObject d))
                  = (Error ("Internal server error: " ++ exn_str p AttributeError), 500))
  /\ (forall data, json_truth data = true ->
                   json_contains "keyword" data = Return false ->
                   keyword_checker p (Body data) = (Error "Keyword is required", 400))
  /\ (forall data, json_truth data = true ->
                   json_contains "keyword" data = Return true ->
                   (forall d, data <> JObject d) ->
                   keyword_checker p (Body data)
                   = (Error ("Internal server error: " ++ exn_str p TypeError), 500)).
Proof.
  split; [reflexivity|]. split; [|split; [|split; [|split; [|split]]]].
  - intros data H. unfold keyword_checker, keyword_checker_try.
    cbn [get_json bind]. now rewrite H.
  - intros [|m d] H; [reflexivity|].
    unfold keyword_checker, keyword_checker_try.
    cbn [get_json bind json_truth negb json_contains]. now rewrite H.
  - intros data H [-> | [x ->]];
      unfold keyword_checker, keyword_checker_try;
      cbn [get_json bind]; rewrite H; reflexivity.
  - intros [|m d] v H Hv; [discriminate|].
    unfold keyword_checker, keyword_checker_try.
    cbn [get_json bind json_truth negb json_contains json_item].
    rewrite H. cbn [negb bind].
    destruct v as [|b|x|s|items|members]; try reflexivity.
    exfalso. now apply (Hv s).
  - intros data H Hc. unfold keyword_checker, keyword_checker_try.
    cbn [get_json bind]. rewrite H, Hc. reflexivity.
  - intros data H Hc Hd. unfold keyword_checker, keyword_checker_try.
    cbn [get_json bind]. rewrite H, Hc. cbn [negb bind].
    destruct data as [|b|x|s|items|members]; try reflexivity.
    exfalso. now apply (Hd members).
Qed.

Lemma keyword_field_validation_witness :
  keyword_checker (demo_process (Return ["Makeup"])) (Body (JArray []))
  = (Error "Keyword is required", 400)
  /\ keyword_checker (demo_process (Return ["Makeup"]))
       (Body (JObject [("text", JString "serum")]))
     = (Error "Keyword is required", 400)
  /\ keyword_checker (demo_process (Return ["Makeup"])) (Body (JBool true))
     = (Error "Internal server error: argument of type 'bool' is not iterable", 500)
  /\ keyword_checker (demo_process (Return ["Makeup"]))
       (Body (JObject [("keyword", JNumber 7)]))
     = (Error "Internal server error: object has no attribute 'strip'", 500).
Proof.
  destruct (keyword_field_validation (demo_process (Return ["Makeup"])))
    as [_ [Hfalse [Hmissing [Htype [Hother _]]]]].
  split; [|split; [|split]].
  - apply (Hfalse (JArray [])). reflexivity.
  - apply (Hmissing [("text", JString "serum")]). reflexivity.
  - apply (Htype (JBool true)); [reflexivity|]. now left.
  - apply (Hother [("keyword", JNumber 7)] (JNumber 7)); [reflexivity|].
    intros s. discriminate.
Defined.

(** X7. White space around the keyword never changes the answer: a
    keyword and its trimmed form get the same response. *)
Theorem surrounding_space_is_ignored
        (p : Process) (d d' : list (string * json)) (kw : string) :
  member "keyword" d = Some (JString kw) ->
  member "keyword" d' = Some (JString (strip kw)) ->
  keyword_checker p (Body (JObject d)) = keyword_checker p (Body (JObject d')).
Proof.
  intros H H'.
  destruct d as [|m l]; [discriminate|]. destruct d' as [|m' l']; [discriminate|].
  unfold keyword_checker, keyword_checker_try.
  cbn [get_json bind json_truth negb json_contains json_item].
  rewrite H, H'. cbn [negb bind strip_value]. now rewrite strip_idempotent.
Qed.

Lemma surrounding_space_is_ignored_witness :
  keyword_checker (demo_process (Return ["Makeup"; "Skincare"])) (ask "  lip tint ")
  = keyword_checker (demo_process (Return ["Makeup"; "Skincare"])) (ask "lip tint").
Proof.
  apply (surrounding_space_is_ignored _ _ _ "  lip tint "); reflexivity.
Defined.

(** X8. The endpoint has five answers and no other: the two refusals
    with status 400, the catch-all answer with status 500, the category
    report with status 404 and the match with status 200. *)
Theorem keyword_checker_answers (p : Process) (request : request_json) :
  keyword_checker p request = (Error "Keyword is required", 400)
  \/ keyword_checker p request = (Error "Keyword cannot be empty", 400)
  \/ (exists e, keyword_checker p request
                = (Error ("Internal server error: " ++ exn_str p e), 500))
  \/ (exists msg cat sim, keyword_checker p request = (CategoryError msg cat sim, 404))
  \/ (exists m, keyword_checker p request = (Matched m, 200)).
Proof.
  unfold keyword_checker, keyword_checker_try.
  destruct request as [|data]; cbn [get_json bind];
    [right; right; left; now exists HTTPException|].
  destruct (json_truth data); cbn [negb]; [|now left].
  destruct (json_contains "keyword" data) as [[|]|e]; cbn [bind negb];
    [|now left|right; right; left; now exists e].
  destruct (json_item "keyword" data) as [v|e]; cbn [bind];
    [|right; right; left; now exists e].
  destruct (strip_value v) as [user_keyword|e]; cbn [bind];
    [|right; right; left; now exists e].
  destruct (truthy user_keyword); cbn [negb]; [|right; now left].
  destruct (nearest_category p _) as [[cat sim]|e]; cbn [bind];
    [|right; right; left; now exists e].
  destruct (os_path_exists p _); cbn [negb];
    [|right; right; right; left; now eexists _, _, _].
  destruct (pd_read_csv p _) as [[|row df]|e]; cbn [bind].
  - right; right; right; left; now eexists _, _, _.
  - destruct (closest_keyword p _ _) as [[[k ks] kd]|e]; cbn [bind].
    + right; right; right; right. now eexists.
    + right; right; left. now exists e.
  - right; right; left. now exists e.
Qed.

(** X9. When the dataset file of the matched category exists and
    reading it raises, the answer is the catch-all one with status 500
    and the text of that exception; the matched category is not reported. *)
Theorem unreadable_dataset_is_internal_error
        (p : Process) (d : list (string * json)) (kw cat : string) (sim : Q) (e : exn) :
  member "keyword" d = Some (JString kw) ->
  strip kw <> "" ->
  nearest_category p (model_encode p (strip kw)) = Return (cat, sim) ->
  os_path_exists p (dataset_file cat) = true ->
  pd_read_csv p (dataset_file cat) = Raise e ->
  keyword_checker p (Body (JObject d)) = (Error ("Internal server error: " ++ exn_str p e), 500).
Proof.
  intros Hkw Hstrip Hnear Hex Hread.
  unfold keyword_checker, keyword_checker_try.
  destruct d as [|m d']; [discriminate|].
  cbn [get_json bind json_truth negb json_contains json_item].
  rewrite Hkw. cbn [negb bind strip_value].
  rewrite (truthy_nonempty _ Hstrip). cbn [negb].
  rewrite Hnear. cbn [bind]. fold (dataset_file cat).
  rewrite Hex. cbn [negb]. rewrite Hread. reflexivity.
Qed.

Lemma unreadable_dataset_is_internal_error_witness :
  keyword_checker unreadable_process (ask "lip tint")
  = (Error "Internal server error: No such file or directory", 500).
Proof.
  apply (unreadable_dataset_is_internal_error unreadable_process
           [("keyword", JString "lip tint")] "lip tint" "Skincare" 0 IOError);
    try reflexivity.
  vm_compute. discriminate.
Defined.

(** X10. Once a category is matched and its dataset file holds at least
    one row, the answer has status 200; the matched keyword, the phase,
    the velocity and the engagement rate are those of one row of the
    file, no row is nearer to the query than that one, the two
    similarities are rounded to three decimals, and the analysis fields
    are those computed for that row. *)
Theorem match_reports_one_row
        (p : Process) (d : list (string * json)) (kw cat : string) (sim : Q)
        (keyword_df : list KeywordTrendRecord) :
  member "keyword" d = Some (JString kw) ->
  strip kw <> "" ->
  nearest_category p (model_encode p (strip kw)) = Return (cat, sim) ->
  os_path_exists p (dataset_file cat) = true ->
  pd_read_csv p (dataset_file cat) = Return keyword_df ->
  keyword_df <> [] ->
  exists row m,
    In row keyword_df
    /\ keyword_checker p (Body (JObject d)) = (Matched m, 200)
    /\ (forall other, In other keyword_df ->
          (cosine p (model_encode p (strip kw)) (model_encode p (keyword other))
           <= cosine p (model_encode p (strip kw)) (model_encode p (keyword row)))%Q)
    /\ user_keyword m = strip kw
    /\ matched_category m = cat
    /\ category_similarity m = py_round 3 sim
    /\ matched_keyword m = keyword row
    /\ keyword_similarity m
       = py_round 3 (cosine p (model_encode p (strip kw)) (model_encode p (keyword row)))
    /\ r_phase m = phase row
    /\ r_velocity m = velocity row
    /\ r_engagement_rate m = engagement_rate row
    /\ velocity_description m
       = format_f 1 (velocity row) ++ " mentions per month (past 3 months)"
    /\ engagement_description m
       = "Popularity score: " ++ format_f 3 (engagement_rate row)
    /\ phase_description m = get_phase_description (phase row)
    /\ mkAnalysis (r_future_trend m) (r_insights m) (r_recommendations m)
       = analyze_keyword_with_llm (llm p) (strip kw) cat (phase row) (velocity row)
           (engagement_rate row) (keyword row).
Proof.
  intros Hkw Hstrip Hnear Hex Hread Hne.
  destruct (closest_keyword_returns p (model_encode p (strip kw)) keyword_df Hne)
    as [row [Hin [Hclose Hbest]]].
  exists row. eexists. split; [exact Hin|]. split.
  - unfold keyword_checker, keyword_checker_try.
    destruct d as [|x d']; [discriminate|].
    cbn [get_json bind json_truth negb json_contains json_item].
  rewrite Hkw. cbn [negb bind strip_value].
    rewrite (truthy_nonempty _ Hstrip). cbn [negb].
    rewrite Hnear. cbn [bind]. fold (dataset_file cat).
    rewrite Hex. cbn [negb]. rewrite Hread. cbn [bind].
    destruct keyword_df as [|r0 rs]; [congruence|].
    rewrite Hclose. cbn [bind]. reflexivity.
  - split; [exact Hbest|].
    cbn [user_keyword matched_category category_similarity matched_keyword
         keyword_similarity r_phase r_velocity r_engagement_rate
         velocity_description engagement_description phase_description
         r_future_trend r_insights r_recommendations].
    repeat split.
    destruct (analyze_keyword_with_llm _ _ _ _ _ _ _); reflexivity.
Qed.

Lemma match_reports_one_row_witness :
  exists row m,
    In row demo_rows
    /\ keyword_checker (demo_process (Return ["Makeup"; "Skincare"])) (ask " lip tint ")
       = (Matched m, 200)
    /\ matched_keyword m = keyword row
    /\ r_phase m = phase row.
Proof.
  destruct (match_reports_one_row
              (demo_process (Return ["Makeup"; "Skincare"]))
              [("keyword", JString " lip tint ")] " lip tint " "Skincare" 0 demo_rows
              eq_refl ltac:(vm_compute; discriminate) eq_refl eq_refl eq_refl
              ltac:(discriminate))
    as [row [m [Hin [Hanswer [_ [_ [_ [_ [Hk [_ [Hp _]]]]]]]]]]].
  exists row, m. auto.
Defined.

(** X11. After a start-up that read a category column with at least one
    entry, the category stage never fails: it returns a category of the
    column together with the similarity of the query to that category's
    own embedding, and no category of the column is nearer to the query. *)
Theorem started_index_always_matches
        (V : Type) (encode : string -> V) (cos : V -> V -> Q)
        (text : exn -> string) (exists_ : string -> bool)
        (read : string -> result (list KeywordTrendRecord))
        (service : option client) (categories : list string) (u : V) :
  categories <> [] ->
  exists cat,
    In cat categories
    /\ nearest_category
         (started V encode cos text exists_ read service (Return categories)) u
       = Return (cat, cos u (encode cat))
    /\ forall other, In other categories ->
                     (cos u (encode other) <= cos u (encode cat))%Q.
Proof.
  intros Hne.
  set (p := started V encode cos text exists_ read service (Return categories)).
  destruct (nearest_category_returns p u) as [i [cat [e [Hcat [He [Hret Hmax]]]]]].
  - cbn. destruct categories; [congruence|discriminate].
  - cbn. now rewrite length_map.
  - cbn in Hcat, He, Hmax. rewrite nth_error_map, Hcat in He. injection He as <-.
    exists cat. split; [eapply nth_error_In; eassumption|]. split; [exact Hret|].
    intros other Hin. apply In_nth_error in Hin as [j Hj].
    destruct Hmax as [s [Hs [Hle _]]].
    rewrite !nth_error_map, Hcat in Hs. injection Hs as <-.
    apply (Hle j). rewrite !nth_error_map, Hj. reflexivity.
Qed.

Lemma started_index_always_matches_witness :
  exists cat,
    In cat ["Makeup"; "Skincare"; "Haircare"]
    /\ nearest_category (demo_process (Return ["Makeup"; "Skincare"; "Haircare"])) 8%Z
       = Return (cat, inject_Z (- Z.abs (8 - Z.of_nat (String.length cat)))).
Proof.
  destruct (started_index_always_matches
              Z (fun s => Z.of_nat (String.length s))
              (fun u v => inject_Z (- Z.abs (u - v))) demo_text
              (fun _ => false) (fun _ => Raise IOError) None
              ["Makeup"; "Skincare"; "Haircare"] 8%Z ltac:(discriminate))
    as [cat [Hin [Hret _]]].
  exists cat. split; [exact Hin|exact Hret].
Defined.

(** X12. The five known phases get, in order, the five sentences of the
    table, which are pairwise different and none of which is the sentence
    built around the label; any other label, a known one in another case
    included, gives the sentence built around the label itself, which
    therefore holds the label. *)
Theorem phase_description_total (phase : string) :
  map get_phase_description known_phases = known_phase_sentences
  /\ NoDup (map get_phase_description known_phases)
  /\ (In phase known_phases ->
      In (get_phase_description phase) known_phase_sentences
      /\ get_phase_description phase <> "This keyword is in the " ++ phase ++ " phase.")
  /\ (~ In phase known_phases ->
      get_phase_description phase = "This keyword is in the " ++ phase ++ " phase."
      /\ contains phase (get_phase_description phase) = true).
Proof.
  split; [reflexivity|]. split; [|split].
  - change (map get_phase_description known_phases) with known_phase_sentences.
    unfold known_phase_sentences.
    repeat (constructor; [cbn [In]; intros H;
                          repeat (destruct H as [H|H]; [discriminate H|]);
                          exact H|]).
    constructor.
  - intros H. unfold known_phases in H. cbn [In] in H.
    destruct H as [<- | [<- | [<- | [<- | [<- | []]]]]];
      (split; [vm_compute; tauto|vm_compute; discriminate]).
  - intros H.
    assert (E : get_phase_description phase
                = "This keyword is in the " ++ phase ++ " phase.").
    { unfold get_phase_description.
      repeat match goal with
             | |- context [String.eqb phase ?k] =>
                 destruct (String.eqb_spec phase k) as [->|_];
                 [exfalso; apply H; cbn; tauto|]
             end.
      reflexivity. }
    split; [exact E|]. rewrite E. apply contains_middle.
Qed.

Lemma phase_description_total_witness :
  get_phase_description "growing" = "This keyword is in the growing phase."
  /\ contains "growing" (get_phase_description "growing") = true.
Proof.
  apply (proj2 (proj2 (proj2 (phase_description_total "growing")))).
  cbn. intros H. repeat (destruct H as [H|H]; [discriminate H|]). exact H.
Defined.

(** ** The reporting endpoints, further *)

Section SortedFacts.

Context {A : Type} (key : A -> Q).

Let above (a b : A) : Prop := (key b <= key a)%Q.

Lemma insert_desc_permutation (x : A) (l : list A) :
  Permutation (insert_desc key x l) (x :: l).
Proof.
  induction l as [|y r IH]; cbn [insert_desc]; [apply Permutation_refl|].
  destruct (Qle_bool (key y) (key x)); [apply Permutation_refl|].
  eapply Permutation_trans; [apply perm_skip, IH|apply perm_swap].
Qed.

Lemma sorted_desc_permutation (l : list A) : Permutation (sorted_desc key l) l.
Proof.
  induction l as [|x r IH]; [apply Permutation_refl|].
  cbn [sorted_desc fold_right]. fold (sorted_desc key r).
  eapply Permutation_trans; [apply insert_desc_permutation|now apply perm_skip].
Qed.

Lemma insert_desc_sorted (x : A) (l : list A) :
  StronglySorted above l -> StronglySorted above (insert_desc key x l).
Proof.
  induction l as [|y r IH]; intros Hs; cbn [insert_desc].
  - repeat constructor.
  - apply StronglySorted_inv in Hs as [Hr Hy].
    destruct (Qle_bool (key y) (key x)) eqn:E.
    + apply Qle_bool_iff in E. constructor; [constructor; assumption|].
      constructor; [exact E|].
      apply Forall_forall. intros z Hz.
      eapply Forall_forall in Hy; [|exact Hz].
      unfold above in *. eapply Qle_trans; eassumption.
    + constructor; [apply IH; exact Hr|].
      apply Forall_forall. intros z Hz. apply insert_desc_in in Hz as [-> | Hz].
      * unfold above. apply Qlt_le_weak, Qnot_le_lt.
        intros H. apply Qle_bool_iff in H. congruence.
      * eapply Forall_forall in Hy; eassumption.
Qed.

Lemma sorted_desc_sorted (l : list A) : StronglySorted above (sorted_desc key l).
Proof.
  induction l as [|x r IH]; [constructor|].
  cbn [sorted_desc fold_right]. fold (sorted_desc key r).
  now apply insert_desc_sorted.
Qed.

Lemma sorted_desc_keys (l : list A) : Qdescending (map key (sorted_desc key l)).
Proof.
  unfold Qdescending.
  induction (sorted_desc_sorted l) as [|a r Hr IH Ha]; cbn [map]; constructor.
  - exact IH.
  - apply Forall_forall. intros q Hq. apply in_map_iff in Hq as [b [<- Hb]].
    eapply Forall_forall in Ha; eassumption.
Qed.

Lemma firstn_descending (n : nat) (l : list Q) :
  Qdescending l -> Qdescending (firstn n l).
Proof.
  unfold Qdescending. intros H. revert n.
  induction H as [|a r Hr IH Ha]; intros [|n]; cbn [firstn]; constructor.
  - apply IH.
  - apply Forall_forall. intros q Hq. apply firstn_keeps_members in Hq.
    eapply Forall_forall in Ha; eassumption.
Qed.

End SortedFacts.

Section AnalysisFacts.

Lemma rerank_ranks (l : list Analysis) :
  forall i, map rank (rerank i l) = seq (i + 1) (List.length l).
Proof.
  induction l as [|a r IH]; intros i; [reflexivity|].
  cbn [rerank map rank List.length seq]. rewrite IH.
  replace (S i + 1) with (S (i + 1)) by lia. reflexivity.
Qed.

Lemma rerank_growth (l : list Analysis) :
  forall i, map avg_growth (rerank i l) = map avg_growth l.
Proof.
  induction l as [|a r IH]; intros i; [reflexivity|].
  cbn [rerank map avg_growth]. now rewrite IH.
Qed.

Lemma rerank_category (l : list Analysis) :
  forall i, map an_category (rerank i l) = map an_category l.
Proof.
  induction l as [|a r IH]; intros i; [reflexivity|].
  cbn [rerank map an_category]. now rewrite IH.
Qed.

Lemma rerank_length (l : list Analysis) :
  forall i, List.length (rerank i l) = List.length l.
Proof.
  induction l as [|a r IH]; intros i; [reflexivity|].
  cbn [rerank List.length]. now rewrite IH.
Qed.

(** Re-ranking touches the rank and nothing else. *)
Lemma rerank_keeps_fields (l : list Analysis) :
  forall (i : nat) (a : Analysis),
    In a (rerank i l) ->
    exists a0,
      In a0 l
      /\ an_category a = an_category a0
      /\ avg_growth a = avg_growth a0
      /\ an_keywords a = an_keywords a0
      /\ trending_up_count a = trending_up_count a0
      /\ trending_down_count a = trending_down_count a0.
Proof.
  induction l as [|x r IH]; intros i a; cbn [rerank In]; [tauto|].
  intros [<- | H].
  - exists x. split; [now left|repeat split; reflexivity].
  - destruct (IH _ _ H) as [a0 [Hin E]]. exists a0. split; [now right|exact E].
Qed.

Lemma analysis_rows_origin (keyword_trends : list CategoryTrends) :
  forall (i : nat) (a : Analysis),
    In a (analysis_rows i keyword_trends) ->
    exists j c,
      In c keyword_trends /\ keywords_of c <> []
      /\ a = analysis_row j (keywords_of c) (get (ct_category c) "").
Proof.
  induction keyword_trends as [|c rest IH]; intros i a; cbn [analysis_rows];
    [intros []|].
  destruct (keywords_of c) as [|kw kws] eqn:E.
  - intros H. destruct (IH _ _ H) as [j [c' [Hin Ha]]]. exists j, c'.
    split; [now right|exact Ha].
  - intros [<- | H].
    + exists i, c. rewrite E. split; [now left|]. split; [discriminate|reflexivity].
    + destruct (IH _ _ H) as [j [c' [Hin Ha]]]. exists j, c'.
      split; [now right|exact Ha].
Qed.

Lemma analysis_rows_categories (keyword_trends : list CategoryTrends) :
  forall i,
    map an_category (analysis_rows i keyword_trends)
    = map (fun c => get (ct_category c) "") (filter has_keywords keyword_trends).
Proof.
  induction keyword_trends as [|c rest IH]; intros i; [reflexivity|].
  cbn [analysis_rows filter]. unfold has_keywords at 1.
  destruct (keywords_of c) as [|kw kws]; [apply IH|].
  cbn [map an_category analysis_row]. now rewrite IH.
Qed.

End AnalysisFacts.

(** X13. The rows of the trend analysis are ranked 1, 2, 3, ... in the
    order they are returned, and that order is by average growth,
    largest first. *)
Theorem trend_analysis_is_ranked (keyword_trends : list CategoryTrends) :
  map rank (get_trend_analysis keyword_trends)
  = seq 1 (List.length (get_trend_analysis keyword_trends))
  /\ Qdescending (map avg_growth (get_trend_analysis keyword_trends)).
Proof.
  unfold get_trend_analysis. split.
  - rewrite rerank_ranks, rerank_length. reflexivity.
  - rewrite rerank_growth. apply sorted_desc_keys.
Qed.

(** X14. The trend analysis has exactly one row for each category that
    has at least one keyword; a category without keywords is left out. *)
Theorem trend_analysis_covers_categories (keyword_trends : list CategoryTrends) :
  Permutation (map an_category (get_trend_analysis keyword_trends))
              (map (fun c => get (ct_category c) "")
                   (filter has_keywords keyword_trends))
  /\ List.length (get_trend_analysis keyword_trends)
     = List.length (filter has_keywords keyword_trends).
Proof.
  assert (P : Permutation (map an_category (get_trend_analysis keyword_trends))
                          (map (fun c => get (ct_category c) "")
                               (filter has_keywords keyword_trends))).
  { unfold get_trend_analysis.
    rewrite rerank_category, <- (analysis_rows_categories keyword_trends 0).
    apply Permutation_map, sorted_desc_permutation. }
  split; [exact P|].
  apply Permutation_length in P. now rewrite !length_map in P.
Qed.

(** X15. A row of the trend analysis belongs to one category with
    keywords: it carries that category's name and average growth, and
    its keyword list is the first five of that category's keywords once
    these are put in order of growth rate, largest first. *)
Theorem trend_analysis_top_keywords
        (keyword_trends : list CategoryTrends) (a : Analysis) :
  In a (get_trend_analysis keyword_trends) ->
  exists c ks,
    In c keyword_trends
    /\ keywords_of c <> []
    /\ an_category a = get (ct_category c) ""
    /\ avg_growth a = mean_growth (keywords_of c)
    /\ Permutation ks (keywords_of c)
    /\ Qdescending (map growth_rate_of ks)
    /\ an_keywords a = map top_keyword_row (firstn 5 ks)
    /\ List.length (an_keywords a) <= 5
    /\ trending_up_count a = count_trend "up" (keywords_of c)
    /\ trending_down_count a = count_trend "down" (keywords_of c).
Proof.
  intros Ha. unfold get_trend_analysis in Ha.
  apply rerank_keeps_fields in Ha as [a0 [Hin [Ec [Eg [Ek [Eu Ed]]]]]].
  apply sorted_desc_in, analysis_rows_origin in Hin as [j [c [Hc [Hne ->]]]].
  exists c, (sorted_desc growth_rate_of (keywords_of c)).
  rewrite Ec, Eg, Ek, Eu, Ed.
  cbn [an_category avg_growth an_keywords trending_up_count
       trending_down_count analysis_row].
  repeat split; try reflexivity; try assumption.
  - apply sorted_desc_permutation.
  - apply sorted_desc_keys.
  - rewrite length_map, length_firstn. lia.
Qed.

Lemma trend_analysis_top_keywords_witness :
  exists a c ks,
    In a (get_trend_analysis mixed_trends)
    /\ In c mixed_trends
    /\ an_category a = get (ct_category c) ""
    /\ Permutation ks (keywords_of c)
    /\ an_keywords a = map top_keyword_row (firstn 5 ks).
Proof.
  destruct (get_trend_analysis mixed_trends) as [|a1 la] eqn:Ea;
    [discriminate Ea|].
  assert (Ha : In a1 (get_trend_analysis mixed_trends))
    by (rewrite Ea; now left).
  destruct (trend_analysis_top_keywords mixed_trends a1 Ha)
    as [c [ks [Hc [_ [Hn [_ [Hp [_ [Hk _]]]]]]]]].
  exists a1, c, ks. repeat split; try assumption. now left.
Defined.

Section BreakdownFacts.

Lemma Zdescending_of_injected (l : list Z) :
  Qdescending (map inject_Z l) -> Zdescending l.
Proof.
  unfold Qdescending, Zdescending.
  induction l as [|a r IH]; intros H; [constructor|].
  cbn [map] in H. apply StronglySorted_inv in H as [Hr Ha].
  constructor; [now apply IH|].
  apply Forall_forall. intros z Hz. rewrite Zle_Qle.
  eapply Forall_forall in Ha; [exact Ha|]. now apply in_map.
Qed.

Lemma count_up_down (l : list KeywordInfo) :
  count_trend "up" l + count_trend "down" l <= List.length l.
Proof.
  unfold count_trend. induction l as [|kw r IH]; [cbn; lia|].
  cbn [filter List.length].
  destruct (kw_trend kw) as [t|]; cbn [opt_is]; [|lia].
  destruct (String.eqb_spec t "up") as [->|_].
  - change (String.eqb "up" "down") with false. cbn [List.length]. lia.
  - destruct (String.eqb t "down"); cbn [List.length]; lia.
Qed.

(** The loop of [get_metrics] over the keywords seen so far. *)
Lemma top_growth_loop (l : list KeywordInfo) :
  forall (seen : list KeywordInfo) (top : Q * string),
    (0 <= fst top)%Q ->
    (forall kw, In kw seen -> (growth_rate_of kw <= fst top)%Q) ->
    (top = (0%Q, "N/A")
     \/ exists kw, In kw seen
                   /\ top = (growth_rate_of kw, get (kw_keyword kw) "N/A")
                   /\ (0 < growth_rate_of kw)%Q) ->
    let final :=
      fold_left
        (fun (top : Q * string) kw =>
           if Qgt_bool (growth_rate_of kw) (fst top)
           then (growth_rate_of kw, get (kw_keyword kw) "N/A")
           else top) l top in
    (forall kw, In kw (seen ++ l) -> (growth_rate_of kw <= fst final)%Q)
    /\ (final = (0%Q, "N/A")
        \/ exists kw, In kw (seen ++ l)
                      /\ final = (growth_rate_of kw, get (kw_keyword kw) "N/A")
                      /\ (0 < growth_rate_of kw)%Q).
Proof.
  induction l as [|kw r IH]; intros seen top H0 Hle Hor; cbn [fold_left].
  - rewrite app_nil_r. split; assumption.
  - replace (seen ++ kw :: r)%list with ((seen ++ [kw]) ++ r)%list
      by (rewrite <- app_assoc; reflexivity).
    destruct (Qgt_bool (growth_rate_of kw) (fst top)) eqn:E.
    + apply Qgt_bool_true in E. apply IH.
      * cbn [fst]. apply Qlt_le_weak. eapply Qle_lt_trans; eassumption.
      * cbn [fst]. intros k Hk. apply in_app_or in Hk as [Hk | [<- | []]].
        -- apply Qlt_le_weak. eapply Qle_lt_trans; [apply Hle; exact Hk|exact E].
        -- apply Qle_refl.
      * right. exists kw. split; [apply in_or_app; right; now left|].
        split; [reflexivity|]. eapply Qle_lt_trans; eassumption.
    + apply Qgt_bool_false in E. apply IH.
      * exact H0.
      * intros k Hk. apply in_app_or in Hk as [Hk | [<- | []]];
          [apply Hle; exact Hk|exact E].
      * destruct Hor as [-> | [k [Hk Hrest]]]; [now left|].
        right. exists k. split; [apply in_or_app; now left|exact Hrest].
Qed.

End BreakdownFacts.

(** X16. The category breakdown has one entry for each row of the
    category table, in order of the percentage, largest first; every
    percentage lies between 0 and 100. *)
Theorem category_breakdown_layout
        (keyword_trends : list CategoryTrends) (category_data : list CategoryRow) :
  Permutation (get_category_breakdown keyword_trends category_data)
              (map (breakdown_entry keyword_trends) category_data)
  /\ List.length (get_category_breakdown keyword_trends category_data)
     = List.length category_data
  /\ Zdescending (map bd_percentage
                      (get_category_breakdown keyword_trends category_data))
  /\ forall b, In b (get_category_breakdown keyword_trends category_data) ->
               (0 <= bd_percentage b <= 100)%Z.
Proof.
  unfold get_category_breakdown.
  set (entries := map (breakdown_entry keyword_trends) category_data).
  pose proof (sorted_desc_permutation (fun b => inject_Z (bd_percentage b)) entries)
    as P.
  split; [exact P|]. split; [|split].
  - apply Permutation_length in P. rewrite P. apply length_map.
  - apply Zdescending_of_injected. rewrite map_map. apply sorted_desc_keys.
  - intros b Hb. apply sorted_desc_in in Hb. subst entries.
    apply in_map_iff in Hb as [row [<- _]].
    cbn [bd_percentage breakdown_entry]. lia.
Qed.

(** X17. The top growth rate of the metrics is the largest growth rate
    above zero and the top keyword is the first keyword that has it;
    when no keyword has a growth rate above zero the metrics show "0.0%"
    and "N/A". *)
Theorem metrics_top_growth (keyword_trends : list CategoryTrends) :
  let all := flat_map keywords_of keyword_trends in
  (forall kw, In kw all -> (growth_rate_of kw <= fst (top_growth_of keyword_trends))%Q)
  /\ (top_growth_of keyword_trends = (0%Q, "N/A")
      \/ exists kw, In kw all
                    /\ top_growth_of keyword_trends
                       = (growth_rate_of kw, get (kw_keyword kw) "N/A")
                    /\ (0 < growth_rate_of kw)%Q)
  /\ ((forall kw, In kw all -> (growth_rate_of kw <= 0)%Q) ->
      top_growth_rate (get_metrics keyword_trends) = "0.0%"
      /\ top_keyword (get_metrics keyword_trends) = "N/A").
Proof.
  intros all. subst all.
  pose proof (top_growth_loop (flat_map keywords_of keyword_trends) []
                (0%Q, "N/A") (Qle_refl 0) ltac:(intros kw []) (or_introl eq_refl))
    as H.
  cbv zeta in H. cbn [app] in H. destruct H as [Hle Hor].
  unfold top_growth_of.
  split; [exact Hle|]. split; [exact Hor|].
  intros Hnone. destruct Hor as [E | [kw [Hin [_ Hpos]]]].
  - unfold get_metrics, top_growth_of. rewrite E. split; reflexivity.
  - exfalso. apply (Qlt_irrefl 0).
    eapply Qlt_le_trans; [exact Hpos|apply Hnone; exact Hin].
Qed.

Lemma metrics_top_growth_witness :
  top_growth_rate (get_metrics falling_trends) = "0.0%"
  /\ top_keyword (get_metrics falling_trends) = "N/A".
Proof.
  apply (proj2 (proj2 (metrics_top_growth falling_trends))).
  intros kw [<- | [<- | []]]; vm_compute; discriminate.
Defined.

(** X18. In the metrics the keywords trending up and those trending
    down are counted apart and together never exceed the total. *)
Theorem metrics_counts_bounded (keyword_trends : list CategoryTrends) :
  m_trending_up (get_metrics keyword_trends)
  + m_trending_down (get_metrics keyword_trends)
  <= total_keywords (get_metrics keyword_trends)
  /\ total_keywords (get_metrics keyword_trends)
     = List.length (flat_map keywords_of keyword_trends).
Proof.
  unfold get_metrics. destruct (top_growth_of keyword_trends) as [top name].
  cbn [m_trending_up m_trending_down total_keywords].
  split; [apply count_up_down|reflexivity].
Qed.

(** X19. The trending keywords are at most twenty, in order of growth
    rate, largest first; each is a keyword of some category and carries
    that category's name; with twenty keywords or fewer all of them are
    returned. *)
Theorem trending_keywords_top_twenty (keyword_trends : list CategoryTrends) :
  List.length (get_trending_keywords keyword_trends) <= 20
  /\ Qdescending (map (fun x => growth_rate_of (fst x))
                      (get_trending_keywords keyword_trends))
  /\ (forall kw category,
         In (kw, category) (get_trending_keywords keyword_trends) ->
         exists c, In c keyword_trends /\ In kw (keywords_of c)
                   /\ category = get (ct_category c) "")
  /\ (List.length (all_keywords keyword_trends) <= 20 ->
      Permutation (get_trending_keywords keyword_trends) (all_keywords keyword_trends)).
Proof.
  unfold get_trending_keywords.
  set (key := fun x : KeywordInfo * string => growth_rate_of (fst x)).
  split; [rewrite length_firstn; lia|]. split; [|split].
  - rewrite <- firstn_map. apply firstn_descending, sorted_desc_keys.
  - intros kw category Hin.
    apply firstn_keeps_members, sorted_desc_in in Hin.
    unfold all_keywords in Hin. apply in_flat_map in Hin as [c [Hc Hin]].
    unfold tag_keywords in Hin. apply in_map_iff in Hin as [k [E Hk]].
    injection E as -> <-. exists c. auto.
  - intros Hlen. rewrite firstn_all2.
    + apply sorted_desc_permutation.
    + rewrite (Permutation_length (sorted_desc_permutation key _)). exact Hlen.
Qed.

Lemma trending_keywords_top_twenty_witness :
  Permutation (get_trending_keywords mixed_trends) (all_keywords mixed_trends).
Proof.
  apply (proj2 (proj2 (proj2 (trending_keywords_top_twenty mixed_trends)))).
  vm_compute. lia.
Defined.

Section SummaryFacts.

Lemma py_max_loop (l : list Q) :
  forall (seen : list Q) (m : Q),
    In m seen ->
    (forall y, In y seen -> (y <= m)%Q) ->
    let final := fold_left (fun m y => if Qgt_bool y m then y else m) l m in
    In final (seen ++ l) /\ forall y, In y (seen ++ l) -> (y <= final)%Q.
Proof.
  induction l as [|x r IH]; intros seen m Hin Hle; cbn [fold_left].
  - rewrite app_nil_r. split; assumption.
  - replace (seen ++ x :: r)%list with ((seen ++ [x]) ++ r)%list
      by (rewrite <- app_assoc; reflexivity).
    destruct (Qgt_bool x m) eqn:E.
    + apply Qgt_bool_true in E. apply IH.
      * apply in_or_app. right. now left.
      * intros y Hy. apply in_app_or in Hy as [Hy | [<- | []]].
        -- apply Qlt_le_weak. eapply Qle_lt_trans; [apply Hle; exact Hy|exact E].
        -- apply Qle_refl.
    + apply Qgt_bool_false in E. apply IH.
      * apply in_or_app. now left.
      * intros y Hy. apply in_app_or in Hy as [Hy | [<- | []]];
          [apply Hle; exact Hy|exact E].
Qed.

Lemma py_max_largest (l : list Q) :
  l <> [] ->
  exists m, py_max l = Return m /\ In m l /\ forall y, In y l -> (y <= m)%Q.
Proof.
  destruct l as [|x r]; [congruence|]. intros _.
  eexists. split; [reflexivity|].
  apply (py_max_loop r [x] x); [now left|].
  intros y [<- | []]. apply Qle_refl.
Qed.

Lemma summary_hot_count (keyword_trends : list CategoryTrends) :
  forall st,
    hot_count (fold_left summary_step keyword_trends st)
    = hot_count st
      + List.length (filter (fun kw => Qgt_bool (growth_rate_of kw) 10)
                            (flat_map keywords_of keyword_trends)).
Proof.
  induction keyword_trends as [|c rest IH]; intros st; cbn [fold_left flat_map].
  - cbn. lia.
  - rewrite IH, filter_app, length_app. unfold summary_step.
    destruct (keywords_of c) as [|kw kws]; cbn [hot_count filter List.length app]; lia.
Qed.

End SummaryFacts.

(** X20. The trend summary raises when there is no keyword at all.
    Otherwise it returns; its highest growth is the largest growth rate
    of all keywords, always printed with a plus sign in front, so that a
    negative one reads "+-"; its hot count is the number of keywords
    whose growth rate is above 10. *)
Theorem trend_summary_behaviour (keyword_trends : list CategoryTrends) :
  let all := flat_map keywords_of keyword_trends in
  (all = [] -> get_trend_summary keyword_trends = Raise ValueError)
  /\ (all <> [] ->
      exists s m,
        get_trend_summary keyword_trends = Return s
        /\ (exists kw, In kw all /\ m = growth_rate_of kw)
        /\ (forall kw, In kw all -> (growth_rate_of kw <= m)%Q)
        /\ highest_growth s = "+" ++ format_f 1 m ++ "%"
        /\ ((m < 0)%Q -> highest_growth s = "+-" ++ format_unsigned 1 (- m)%Q ++ "%")
        /\ startswith "+" (avg_category_growth s) = true
        /\ hot_keywords_count s
           = List.length (filter (fun kw => Qgt_bool (growth_rate_of kw) 10) all)).
Proof.
  intros all. subst all. split.
  - intros E. unfold get_trend_summary. rewrite E. reflexivity.
  - intros Hne.
    destruct (py_max_largest (map growth_rate_of (flat_map keywords_of keyword_trends)))
      as [m [Hm [Hin Hle]]].
    { intros E. apply Hne. now apply map_eq_nil in E. }
    unfold get_trend_summary. rewrite Hm. cbn [bind].
    eexists. exists m. split; [reflexivity|].
    cbn [highest_growth avg_category_growth hot_keywords_count].
    split; [|split; [|split; [|split; [|split]]]].
    + apply in_map_iff in Hin as [kw [E Hkw]]. exists kw. auto.
    + intros kw Hkw. apply Hle. now apply in_map.
    + reflexivity.
    + intros Hneg. rewrite (format_f_negative 1 m Hneg). reflexivity.
    + reflexivity.
    + rewrite summary_hot_count. reflexivity.
Qed.

Lemma trend_summary_behaviour_witness :
  exists s,
    get_trend_summary falling_trends = Return s
    /\ highest_growth s = "+-3.0%"
    /\ get_trend_summary [] = Raise ValueError.
Proof.
  destruct (trend_summary_behaviour falling_trends) as [_ H].
  destruct (H ltac:(vm_compute; discriminate)) as [s [m [Hs [_ [_ [Hh _]]]]]].
  exists s. split; [exact Hs|]. split.
  - rewrite Hs in *. vm_compute in Hs. injection Hs as <-. reflexivity.
  - apply (proj1 (trend_summary_behaviour [])). reflexivity.
Defined.

Section TrendSlotFacts.

(** Once the trend slot is filled no later line changes it. *)
Lemma step_keeps_trend (st : NarrativeSections) (line : string) :
  truthy (ns_future_trend st) = true ->
  ns_future_trend (step st line) = ns_future_trend st.
Proof.
  intros Ht. unfold step.
  destruct (section_tag line); [reflexivity|].
  destruct (current_section st) as [[| |]|]; [| | |reflexivity].
  - rewrite Ht. reflexivity.
  - destruct (startswith "-" line);
      [destruct (truthy _ && _)|destruct (_ && _ && _)]; reflexivity.
  - destruct (startswith "-" line);
      [destruct (truthy _ && _)|destruct (_ && _ && _)]; reflexivity.
Qed.

Lemma scan_keeps_trend (lines : list string) :
  forall st,
    truthy (ns_future_trend st) = true ->
    ns_future_trend (fold_left step lines st) = ns_future_trend st.
Proof.
  induction lines as [|l ls IH]; intros st Ht; [reflexivity|].
  cbn [fold_left]. rewrite IH; rewrite step_keeps_trend; auto.
Qed.

End TrendSlotFacts.

(** X21. When the first line of the cleaned response is the trend header
    and the next line is no header, has more than 15 characters, does
    not start with the bullet marker and is not the low-information
    sentence, that line is the trend sentence returned, whatever
    follows. *)
Theorem first_sentence_after_header_is_trend
        (text h t : string) (rest : list string) :
  lines_of text = h :: t :: rest ->
  section_tag h = Some Trend ->
  section_tag t = None ->
  long_sentence t = true ->
  contains low_information (lower t) = false ->
  future_trend (parse_llm_response_enhanced (Text text)) = t.
Proof.
  intros Hl Hh Ht Hlong Hlow.
  assert (Htrim : strip t = t).
  { apply (lines_of_trimmed text t). rewrite Hl. right. now left. }
  assert (Hne : truthy t = true).
  { unfold long_sentence in Hlong. apply andb_prop in Hlong as [Hlen _].
    exact (long_is_truthy _ _ Hlen). }
  assert (E : ns_future_trend (captured text) = t).
  { unfold captured, scan. rewrite Hl. cbn [fold_left].
    rewrite (step_header start h Trend Hh).
    rewrite scan_keeps_trend.
    - unfold step. rewrite Ht. cbn [current_section ns_future_trend truthy negb].
      unfold long_sentence in Hlong. rewrite Hlong. cbn [ns_future_trend]. exact Htrim.
    - unfold step. rewrite Ht. cbn [current_section ns_future_trend truthy negb].
      unfold long_sentence in Hlong. rewrite Hlong. cbn [ns_future_trend].
      now rewrite Htrim. }
  unfold parse_llm_response_enhanced, quality_gate. cbn [future_trend].
  rewrite E, Hne, Hlow. cbn [negb orb]. exact Htrim.
Qed.

Lemma first_sentence_after_header_is_trend_witness :
  future_trend (parse_llm_response_enhanced (Text sample_response))
  = "Interest will keep rising over the next two quarters".
Proof.
  apply (first_sentence_after_header_is_trend sample_response "FUTURE TREND:"
           "Interest will keep rising over the next two quarters"
           (List.tl (List.tl (lines_of sample_response))));
    vm_compute; reflexivity.
Defined.

Lemma category_breakdown_layout_witness :
  exists b,
    In b (get_category_breakdown mixed_trends mixed_rows)
    /\ bd_name b = "Skincare"
    /\ (0 <= bd_percentage b <= 100)%Z.
Proof.
  destruct (get_category_breakdown mixed_trends mixed_rows) as [|b1 lb] eqn:Eb;
    [discriminate Eb|].
  assert (Hb : In b1 (get_category_breakdown mixed_trends mixed_rows))
    by (rewrite Eb; now left).
  exists b1. split; [now left|]. split.
  - injection Eb as <- _. reflexivity.
  - exact (proj2 (proj2 (proj2 (category_breakdown_layout mixed_trends mixed_rows)))
                 b1 Hb).
Defined.
